(** * NGSBenchmarks: the streaming datasheet parser

    A shallow embedding of [parseDatasheetFile] from
    [scripts/parseNGSDatasheets.js] (class [NGSDatasheetParser], the
    line-by-line variant with [maxBenchmarks = 1000]) together with the
    JavaScript built-ins it calls, and the properties of the record
    builder, the field extractor, the coordinate converter and the
    validator that the specification states.

    Modelling choices.
    - A JavaScript number is a binary64 float: Rocq's primitive [float].
    - A line is a [string] of characters with a code below 256, as the
      datasheets are ASCII.
    - A benchmark object lives in a heap (a list indexed by allocation
      order); [this.benchmarks] and [currentBenchmark] hold references into
      it, so pushing an object twice and writing to a pushed object are
      visible in the model.
    - The line stream delivered by [readline] is a [list string]; the
      [for await] loop is a recursion over it that can stop early. *)

From Stdlib Require Import ZArith Lia Bool Ascii String.
From Stdlib Require Import Floats.PrimFloat.
From Stdlib Require Floats.SpecFloat Floats.FloatOps.
From stdpp Require Import base list strings gmap.

Local Close Scope float_scope.
#[local] Set Warnings "-inexact-float".

Local Open Scope string_scope.
Local Open Scope nat_scope.
Local Open Scope list_scope.

(** ** JavaScript built-ins *)

Module JS.

(** *** Numbers *)

Definition NaN : float := PrimFloat.nan.

(** [ToBoolean] of a number: false for [+0], [-0] and [NaN]. *)
Definition truthyNumber (x : float) : bool :=
  negb (PrimFloat.eqb x 0%float) && PrimFloat.eqb x x.

(** [ToBoolean] of a string: false for the empty string only. *)
Definition truthyString (s : string) : bool :=
  match s with
  | EmptyString => false
  | String _ _ => true
  end.

(** The binary64 nearest (ties to even) to the integer [m] times [2^e]. *)
Definition roundBinary (m e : Z) : float :=
  FloatOps.SF2Prim
    (SpecFloat.binary_normalize FloatOps.prec FloatOps.emax m e false).

(** The binary64 nearest to [m * 10^e10], for [m >= 0]: what the
    specification calls the Number value of a decimal literal. A negative
    power of ten is divided out with 64 guard bits and a sticky bit, so the
    single rounding of [roundBinary] is the correct one. *)
Definition roundDecimal (m e10 : Z) : float :=
  if (m =? 0)%Z then 0%float
  else if (0 <=? e10)%Z then roundBinary (m * 10 ^ e10) 0
  else
    let d := (10 ^ (- e10))%Z in
    let s := Z.max 0 (64 + Z.log2 d - Z.log2 m) in
    let n := Z.shiftl m s in
    let q := (n / d)%Z in
    let sticky := if (n mod d =? 0)%Z then 0%Z else 1%Z in
    roundBinary (2 * q + sticky) (- s - 1).

(** *** Characters and strings *)

Definition code (c : ascii) : nat := nat_of_ascii c.

(** White space and line terminators with a code below 256: what [\s]
    matches and what [trim], [parseInt] and [parseFloat] skip. *)
Definition isWhiteSpace (c : ascii) : bool :=
  let n := code c in
  ((9 <=? n) && (n <=? 13) || (n =? 32) || (n =? 160))%nat.

Definition isLineTerminator (c : ascii) : bool :=
  let n := code c in ((n =? 10) || (n =? 13))%nat.

Definition isDigit (c : ascii) : bool :=
  let n := code c in ((48 <=? n) && (n <=? 57))%nat.

Definition isUpper (c : ascii) : bool :=
  let n := code c in ((65 <=? n) && (n <=? 90))%nat.

Definition isChar (c0 : ascii) (c : ascii) : bool := Ascii.eqb c0 c.

Fixpoint dropStr (n : nat) (s : string) : string :=
  match n, s with
  | O, _ => s
  | S n', String _ s' => dropStr n' s'
  | S _, EmptyString => EmptyString
  end.

Fixpoint takeStr (n : nat) (s : string) : string :=
  match n, s with
  | S n', String c s' => String c (takeStr n' s')
  | _, _ => EmptyString
  end.

(** [hay.includes(needle)] *)
Fixpoint includes (hay needle : string) : bool :=
  if String.prefix needle hay then true
  else match hay with
       | EmptyString => false
       | String _ hay' => includes hay' needle
       end.

Fixpoint trimStart (s : string) : string :=
  match s with
  | String c s' => if isWhiteSpace c then trimStart s' else s
  | EmptyString => EmptyString
  end.

Fixpoint trimEnd (s : string) : string :=
  match s with
  | EmptyString => EmptyString
  | String c s' =>
      match trimEnd s' with
      | EmptyString => if isWhiteSpace c then EmptyString else String c EmptyString
      | t => String c t
      end
  end.

(** [s.trim()] *)
Definition trim (s : string) : string := trimEnd (trimStart s).

(** *** parseInt and parseFloat *)

(** The value of a character as a digit, up to radix 16. *)
Definition digitValue (c : ascii) : option Z :=
  let n := code c in
  if ((48 <=? n) && (n <=? 57))%nat then Some (Z.of_nat (n - 48))
  else if ((97 <=? n) && (n <=? 102))%nat then Some (Z.of_nat (n - 87))
  else if ((65 <=? n) && (n <=? 70))%nat then Some (Z.of_nat (n - 55))
  else None.

(** Reads the longest prefix of digits of the radix: the number of digits
    read, their value with [acc] as the digits read before, and the rest. *)
Fixpoint readDigits (radix : Z) (s : string) (acc : Z) (count : nat)
  : Z * nat * string :=
  match s with
  | String c s' =>
      match digitValue c with
      | Some d =>
          if (d <? radix)%Z then readDigits radix s' (acc * radix + d)%Z (S count)
          else (acc, count, s)
      | None => (acc, count, s)
      end
  | EmptyString => (acc, count, s)
  end.

(** An optional sign: whether it is [-], and the rest. *)
Definition readSign (s : string) : bool * string :=
  match s with
  | String "-" s' => (true, s')
  | String "+" s' => (false, s')
  | _ => (false, s)
  end.

Definition applySign (neg : bool) (x : float) : float :=
  if neg then PrimFloat.opp x else x.

(** [parseInt(s)] with no radix argument. *)
Definition parseInt (s : string) : float :=
  let (neg, s1) := readSign (trimStart s) in
  let (radix, s2) :=
    if String.prefix "0x" s1 || String.prefix "0X" s1 then (16%Z, dropStr 2 s1)
    else (10%Z, s1) in
  match readDigits radix s2 0 0 with
  | (_, O, _) => NaN
  | (v, S _, _) => applySign neg (roundDecimal v 0)
  end.

(** The exponent part [e], [e+], [e-] followed by digits; zero when the
    string has none. *)
Definition readExponent (s : string) : Z :=
  match s with
  | String c s' =>
      if isChar "e" c || isChar "E" c then
        let (neg, s'') := readSign s' in
        match readDigits 10 s'' 0 0 with
        | (_, O, _) => 0%Z
        | (v, S _, _) => if neg then (- v)%Z else v
        end
      else 0%Z
  | EmptyString => 0%Z
  end.

(** [parseFloat(s)]: the longest prefix that is a decimal literal. *)
Definition parseFloat (s : string) : float :=
  let (neg, s1) := readSign (trimStart s) in
  if String.prefix "Infinity" s1 then applySign neg PrimFloat.infinity
  else
    let '(intValue, intCount, s2) := readDigits 10 s1 0 0 in
    let '(mantissa, fracCount, s3) :=
      match s2 with
      | String "." s2' =>
          let '(m, total, rest) := readDigits 10 s2' intValue intCount in
          (m, (total - intCount)%nat, rest)
      | _ => (intValue, O, s2)
      end in
    match (intCount + fracCount)%nat with
    | O => NaN
    | S _ =>
        applySign neg
          (roundDecimal mantissa (readExponent s3 - Z.of_nat fracCount))
    end.

End JS.

(** ** Regular expressions

    The fragment of JavaScript regular expressions the parser uses: literal
    text, character classes, greedy [*] and [+] over a class, sequence,
    alternation and capturing groups, matched by backtracking as
    [String.prototype.match] does for a pattern without the [g] flag. *)

Module Regex.
Import JS.

Inductive regex : Type :=
| Str (lit : string)
| Cls (p : ascii -> bool)
| Star (p : ascii -> bool)
| Plus (p : ascii -> bool)
| Seq (r1 r2 : regex)
| Alt (r1 r2 : regex)
| Grp (r : regex).

(** Greedy repetition: take as many characters of the class as the rest of
    the pattern, the continuation [k], allows. *)
Fixpoint star {R : Type} (p : ascii -> bool) (s : string)
  (k : string -> option R) : option R :=
  match s with
  | String c s' =>
      if p c then
        match star p s' k with
        | Some r => Some r
        | None => k s
        end
      else k s
  | EmptyString => k s
  end.

(** Matches [r] at the start of [s]; [caps] are the groups closed so far, in
    the order of their opening parentheses (no group of the parser's
    patterns is nested or repeated). *)
Fixpoint matchAt {R : Type} (r : regex) (s : string) (caps : list string)
  (k : string -> list string -> option R) : option R :=
  match r with
  | Str lit =>
      if String.prefix lit s then k (dropStr (String.length lit) s) caps else None
  | Cls p =>
      match s with
      | String c s' => if p c then k s' caps else None
      | EmptyString => None
      end
  | Star p => star p s (fun s' => k s' caps)
  | Plus p =>
      match s with
      | String c s' => if p c then star p s' (fun s'' => k s'' caps) else None
      | EmptyString => None
      end
  | Seq r1 r2 => matchAt r1 s caps (fun s' caps' => matchAt r2 s' caps' k)
  | Alt r1 r2 =>
      match matchAt r1 s caps k with
      | Some x => Some x
      | None => matchAt r2 s caps k
      end
  | Grp r1 =>
      matchAt r1 s caps (fun s' caps' =>
        k s' (caps' ++ [takeStr (String.length s - String.length s') s]))
  end.

(** [s.match(r)]: the leftmost match, as the array of the matched text (index
    0) and the groups (index 1 onwards); [None] is JavaScript's [null]. *)
Fixpoint matchRegex (s : string) (r : regex) : option (list string) :=
  match matchAt r s [] (fun s' caps => Some (s', caps)) with
  | Some (s', caps) => Some (takeStr (String.length s - String.length s') s :: caps)
  | None =>
      match s with
      | EmptyString => None
      | String _ s' => matchRegex s' r
      end
  end.

(** [m[i]] of a match array. *)
Definition group (m : list string) (i : nat) : string := nth i m "".

Fixpoint seq (rs : list regex) : regex :=
  match rs with
  | [] => Str ""
  | [r] => r
  | r :: rs' => Seq r (seq rs')
  end.

(** The classes [\s], [\d], [.], and the bracket classes of the patterns. *)
Definition ws : ascii -> bool := isWhiteSpace.
Definition digit : ascii -> bool := isDigit.
Definition anyChar (c : ascii) : bool := negb (isLineTerminator c).
Definition upperOrDigit (c : ascii) : bool := isUpper c || isDigit c.
Definition digitOrDot (c : ascii) : bool := isDigit c || isChar "." c.
Definition digitDotMinus (c : ascii) : bool :=
  isDigit c || isChar "." c || isChar "-" c.
Definition oneOf (a b : ascii) (c : ascii) : bool := isChar a c || isChar b c.

End Regex.

(** ** The parser *)

Module NGSDatasheetParser.
Import JS Regex.

(** A reference to a benchmark object: its index in the heap. *)
Definition ref := nat.

(** The object literal of [parseDatasheetFile], with the [datasheet_url]
    property added when the object is saved. [None] is [null] (or, for
    [datasheet_url], a property not yet set). *)
Record Benchmark : Type := mkBenchmark
  { id : option string;
    name : option string;
    type : string;
    latitude : option float;
    longitude : option float;
    elevation : option float;
    state : string;
    description : option string;
    datasheet_url : option string }.

Definition set_id (v : option string) (b : Benchmark) : Benchmark :=
  mkBenchmark v (name b) (type b) (latitude b) (longitude b) (elevation b)
    (state b) (description b) (datasheet_url b).
Definition set_name (v : option string) (b : Benchmark) : Benchmark :=
  mkBenchmark (id b) v (type b) (latitude b) (longitude b) (elevation b)
    (state b) (description b) (datasheet_url b).
Definition set_type (v : string) (b : Benchmark) : Benchmark :=
  mkBenchmark (id b) (name b) v (latitude b) (longitude b) (elevation b)
    (state b) (description b) (datasheet_url b).
Definition set_latitude (v : option float) (b : Benchmark) : Benchmark :=
  mkBenchmark (id b) (name b) (type b) v (longitude b) (elevation b)
    (state b) (description b) (datasheet_url b).
Definition set_longitude (v : option float) (b : Benchmark) : Benchmark :=
  mkBenchmark (id b) (name b) (type b) (latitude b) v (elevation b)
    (state b) (description b) (datasheet_url b).
Definition set_elevation (v : option float) (b : Benchmark) : Benchmark :=
  mkBenchmark (id b) (name b) (type b) (latitude b) (longitude b) v
    (state b) (description b) (datasheet_url b).
Definition set_description (v : option string) (b : Benchmark) : Benchmark :=
  mkBenchmark (id b) (name b) (type b) (latitude b) (longitude b) (elevation b)
    (state b) v (datasheet_url b).
Definition set_datasheet_url (v : option string) (b : Benchmark) : Benchmark :=
  mkBenchmark (id b) (name b) (type b) (latitude b) (longitude b) (elevation b)
    (state b) (description b) v.

(** [ToBoolean] of a property that is [null] or a number, or [null] or a
    string. *)
Definition truthyNum (v : option float) : bool :=
  match v with
  | Some x => truthyNumber x
  | None => false
  end.

Definition truthyStr (v : option string) : bool :=
  match v with
  | Some s => truthyString s
  | None => false
  end.

(** *** Patterns *)

Definition boundaryMarker : string := "National Geodetic Survey, Retrieval Date".

(** [/PID\s*-\s*([A-Z0-9]+)/] *)
Definition pidPattern : regex :=
  seq [Str "PID"; Star ws; Str "-"; Star ws; Grp (Plus upperOrDigit)].

(** [/(\d+)\s+(\d+)\s+([\d.]+)\(([NS])\)\s+(\d+)\s+(\d+)\s+([\d.]+)\(([EW])\)/] *)
Definition coordPattern : regex :=
  seq [Grp (Plus digit); Plus ws; Grp (Plus digit); Plus ws;
       Grp (Plus digitOrDot); Str "("; Grp (Cls (oneOf "N" "S")); Str ")";
       Plus ws;
       Grp (Plus digit); Plus ws; Grp (Plus digit); Plus ws;
       Grp (Plus digitOrDot); Str "("; Grp (Cls (oneOf "E" "W")); Str ")"].

(** [/(?:ELLIP HT-|ORTHO HEIGHT\s*-)\s*([\d.-]+)\s*\(meters\)/] *)
Definition elevPattern : regex :=
  seq [Alt (Str "ELLIP HT-") (seq [Str "ORTHO HEIGHT"; Star ws; Str "-"]);
       Star ws; Grp (Plus digitDotMinus); Star ws; Str "(meters)"].

(** [/DESIGNATION\s*-\s*(.+)/] *)
Definition namePattern : regex :=
  seq [Str "DESIGNATION"; Star ws; Str "-"; Star ws; Grp (Plus anyChar)].

(** *** The field extractor: the body of [if (currentBenchmark) { ... }]

    Each block of the source is a function from the object before the block
    to the object after it. *)

(** Parse PID *)
Definition parsePID (line : string) (b : Benchmark) : Benchmark :=
  if includes line "PID" && includes line "-" then
    match matchRegex line pidPattern with
    | Some pidMatch => set_id (Some (group pidMatch 1)) b
    | None => b
    end
  else b.

(** The test that guards the coordinate block. *)
Definition positionGuard (line : string) : bool :=
  includes line "POSITION-"
  && (includes line "N)" || includes line "S)")
  && (includes line "W)" || includes line "E)").

(** Parse coordinates *)
Definition parseCoordinates (line : string) (b : Benchmark) : Benchmark :=
  if positionGuard line then
    match matchRegex line coordPattern with
    | Some coordMatch =>
        let latDeg := parseInt (group coordMatch 1) in
        let latMin := parseInt (group coordMatch 2) in
        let latSec := parseFloat (group coordMatch 3) in
        let latHem := group coordMatch 4 in
        let lonDeg := parseInt (group coordMatch 5) in
        let lonMin := parseInt (group coordMatch 6) in
        let lonSec := parseFloat (group coordMatch 7) in
        let lonHem := group coordMatch 8 in
        let latitude0 := (latDeg + (latMin / 60) + (latSec / 3600))%float in
        let longitude0 := (lonDeg + (lonMin / 60) + (lonSec / 3600))%float in
        let latitude1 :=
          if String.eqb latHem "S" then (- latitude0)%float else latitude0 in
        let longitude1 :=
          if String.eqb lonHem "W" then (- longitude0)%float else longitude0 in
        set_longitude (Some longitude1) (set_latitude (Some latitude1) b)
    | None => b
    end
  else b.

(** Parse elevation *)
Definition parseElevation (line : string) (b : Benchmark) : Benchmark :=
  if includes line "ELLIP HT-" || includes line "ORTHO HEIGHT" then
    match matchRegex line elevPattern with
    | Some elevMatch => set_elevation (Some (parseFloat (group elevMatch 1))) b
    | None => b
    end
  else b.

(** Parse designation for name *)
Definition parseDesignation (line : string) (b : Benchmark) : Benchmark :=
  if includes line "DESIGNATION" && includes line "-" then
    match matchRegex line namePattern with
    | Some nameMatch => set_name (Some (trim (group nameMatch 1))) b
    | None => b
    end
  else b.

(** Determine type based on content *)
Definition determineType (line : string) (b : Benchmark) : Benchmark :=
  if includes line "PACS" then set_type "Primary Airport Control" b
  else if includes line "CORS" then set_type "CORS Station" b
  else if includes line "TRIANGULATION" then set_type "Triangulation Station" b
  else if includes line "VERTICAL" then set_type "Vertical Control" b
  else b.

Definition extractFields (line : string) (b : Benchmark) : Benchmark :=
  determineType line
    (parseDesignation line
       (parseElevation line
          (parseCoordinates line
             (parsePID line b)))).

(** *** The record builder: the [for await] loop and the final flush *)

(** The state of a call: the heap of benchmark objects, [this.benchmarks],
    and the local variables of [parseDatasheetFile]. *)
Record State : Type := mkState
  { heap : list Benchmark;
    benchmarks : list ref;
    currentBenchmark : option ref;
    lineCount : nat;
    benchmarkCount : nat }.

Definition maxBenchmarks : nat := 1000.

(** [path.basename(filePath)] for a POSIX path: the part after the last
    separator, trailing separators dropped. *)
Fixpoint dropTrailingSlashes (s : string) : string :=
  match s with
  | EmptyString => EmptyString
  | String c s' =>
      match dropTrailingSlashes s' with
      | EmptyString => if isChar "/" c then EmptyString else String c EmptyString
      | t => String c t
      end
  end.

Fixpoint afterLastSlash (s : string) : string :=
  match s with
  | EmptyString => EmptyString
  | String c s' =>
      if includes s' "/" then afterLastSlash s'
      else if isChar "/" c then s' else s
  end.

Definition basename (filePath : string) : string :=
  afterLastSlash (dropTrailingSlashes filePath).

(** The object literal that starts a new benchmark. *)
Definition newBenchmark (stateCode : string) : Benchmark :=
  {| id := None; name := None; type := "Control Point";
     latitude := None; longitude := None; elevation := None;
     state := stateCode; description := None; datasheet_url := None |}.

(** The test of both save sites:
    [currentBenchmark && currentBenchmark.latitude &&
     currentBenchmark.longitude && currentBenchmark.id]. *)
Definition isComplete (b : Benchmark) : bool :=
  truthyNum (latitude b) && truthyNum (longitude b) && truthyStr (id b).

(** The current object when the test of the save sites holds. *)
Definition completeCurrent (st : State) : option (ref * Benchmark) :=
  match currentBenchmark st with
  | Some r =>
      match heap st !! r with
      | Some b => if isComplete b then Some (r, b) else None
      | None => None
      end
  | None => None
  end.

(** The two property writes before the push. *)
Definition describe (filePath stateCode : string) (b : Benchmark) : Benchmark :=
  let description1 :=
    if truthyStr (description b) then description b
    else Some (String.append "NGS "
                 (String.append (type b)
                    (String.append " control point in " stateCode))) in
  let url :=
    String.append "/data/datasheets/"
      (String.append stateCode (String.append "/" (basename filePath))) in
  set_datasheet_url (Some url) (set_description description1 b).

(** The body of both save sites: the two writes, the push and the count. *)
Definition save (filePath stateCode : string) (r : ref) (b : Benchmark)
  (st : State) : State :=
  {| heap := <[r := describe filePath stateCode b]> (heap st);
     benchmarks := benchmarks st ++ [r];
     currentBenchmark := currentBenchmark st;
     lineCount := lineCount st;
     benchmarkCount := S (benchmarkCount st) |}.

(** [currentBenchmark = { ... }]: a new object, allocated at the end of the
    heap. *)
Definition startNew (stateCode : string) (st : State) : State :=
  {| heap := heap st ++ [newBenchmark stateCode];
     benchmarks := benchmarks st;
     currentBenchmark := Some (length (heap st));
     lineCount := lineCount st;
     benchmarkCount := benchmarkCount st |}.

(** [if (currentBenchmark) { ... }]: the field extractor writes to the
    current object in place. *)
Definition extract (line : string) (st : State) : State :=
  match currentBenchmark st with
  | Some r =>
      match heap st !! r with
      | Some b =>
          {| heap := <[r := extractFields line b]> (heap st);
             benchmarks := benchmarks st;
             currentBenchmark := currentBenchmark st;
             lineCount := lineCount st;
             benchmarkCount := benchmarkCount st |}
      | None => st
      end
  | None => st
  end.

(** How an iteration ends: the loop goes on, or [break] leaves it. *)
Inductive Flow : Type :=
| Continue (st : State)
| Break (st : State).

Definition flowState (f : Flow) : State :=
  match f with
  | Continue st => st
  | Break st => st
  end.

Definition isBreak (f : Flow) : bool :=
  match f with
  | Continue _ => false
  | Break _ => true
  end.

(** [if (line.includes('National Geodetic Survey, Retrieval Date')) { ... }] *)
Definition boundary (filePath stateCode line : string) (st : State) : Flow :=
  if includes line boundaryMarker then
    match completeCurrent st with
    | Some (r, b) =>
        let st1 := save filePath stateCode r b st in
        if maxBenchmarks <=? benchmarkCount st1 then Break st1
        else Continue (startNew stateCode st1)
    | None => Continue (startNew stateCode st)
    end
  else Continue st.

(** [lineCount++] *)
Definition countLine (st : State) : State :=
  {| heap := heap st; benchmarks := benchmarks st;
     currentBenchmark := currentBenchmark st;
     lineCount := S (lineCount st);
     benchmarkCount := benchmarkCount st |}.

(** One iteration of the loop: the line is counted, then it passes the
    boundary test and, unless the loop was left there, the field extractor
    (the second [if] is no [else] of the first). *)
Definition loopBody (filePath stateCode line : string) (st : State) : Flow :=
  match boundary filePath stateCode line (countLine st) with
  | Continue st1 => Continue (extract line st1)
  | Break st1 => Break st1
  end.

(** [for await (const line of rl) { ... }]: [Continue] when the input is
    exhausted, [Break] when the loop was left early. *)
Fixpoint forAwait (filePath stateCode : string) (lines : list string)
  (st : State) : Flow :=
  match lines with
  | [] => Continue st
  | line :: rest =>
      match loopBody filePath stateCode line st with
      | Continue st1 => forAwait filePath stateCode rest st1
      | Break st1 => Break st1
      end
  end.

(** "Don't forget the last benchmark": the save after the loop. *)
Definition flush (filePath stateCode : string) (st : State) : State :=
  match completeCurrent st with
  | Some (r, b) => save filePath stateCode r b st
  | None => st
  end.

(** The locals at the start of a call, over the heap and the
    [this.benchmarks] the parser has at that moment. *)
Definition enter (heap0 : list Benchmark) (benchmarks0 : list ref) : State :=
  {| heap := heap0; benchmarks := benchmarks0; currentBenchmark := None;
     lineCount := 0; benchmarkCount := 0 |}.

(** [parseDatasheetFile(filePath, stateCode)] on a file whose lines are
    [lines]: the state when the function returns. Its [benchmarkCount] is the
    value returned, its [benchmarks] is [this.benchmarks]. A stream that
    fails while it is read, which the [catch] turns into the value 0, is
    outside the model. *)
Definition parseDatasheetFile (lines : list string) (filePath stateCode : string)
  (heap0 : list Benchmark) (benchmarks0 : list ref) : State :=
  flush filePath stateCode
    (flowState (forAwait filePath stateCode lines (enter heap0 benchmarks0))).

(** The constructor's parser: no object, [this.benchmarks = []]. *)
Definition parseFresh (lines : list string) (filePath stateCode : string) : State :=
  parseDatasheetFile lines filePath stateCode [] [].

(** The collection as values: the objects [this.benchmarks] refers to. *)
Definition collection (st : State) : list Benchmark :=
  omap (fun r => heap st !! r) (benchmarks st).

End NGSDatasheetParser.

(** ** What a line says: the readings behind the extraction rules *)

Module Readings.
Import JS Regex NGSDatasheetParser.

(** The coordinate converter of the specification: degrees, minutes and
    seconds to decimal degrees, negated for the southern or western
    hemisphere. *)
Definition decimalDegrees (deg min sec : float) (negate : bool) : float :=
  let d := (deg + (min / 60) + (sec / 3600))%float in
  if negate then (- d)%float else d.

(** The match array of a position line: the guard holds and the sextuple
    pattern matches. *)
Definition positionMatch (line : string) : option (list string) :=
  if positionGuard line then matchRegex line coordPattern else None.

(** The coordinates a position line yields. *)
Definition positionOf (line : string) : option (float * float) :=
  match positionMatch line with
  | Some m =>
      Some (decimalDegrees (parseInt (group m 1)) (parseInt (group m 2))
              (parseFloat (group m 3)) (String.eqb (group m 4) "S"),
            decimalDegrees (parseInt (group m 5)) (parseInt (group m 6))
              (parseFloat (group m 7)) (String.eqb (group m 8) "W"))
  | None => None
  end.

(** The height an elevation line yields. *)
Definition elevationOf (line : string) : option float :=
  if includes line "ELLIP HT-" || includes line "ORTHO HEIGHT" then
    match matchRegex line elevPattern with
    | Some m => Some (parseFloat (group m 1))
    | None => None
    end
  else None.

(** The keywords of the type rule, in the order the source tests them. *)
Inductive Keyword : Type := PACS | CORS | TRIANGULATION | VERTICAL.

Definition keywordText (k : Keyword) : string :=
  match k with
  | PACS => "PACS"
  | CORS => "CORS"
  | TRIANGULATION => "TRIANGULATION"
  | VERTICAL => "VERTICAL"
  end.

Definition category (k : Keyword) : string :=
  match k with
  | PACS => "Primary Airport Control"
  | CORS => "CORS Station"
  | TRIANGULATION => "Triangulation Station"
  | VERTICAL => "Vertical Control"
  end.

Definition hasKeyword (line : string) (k : Keyword) : bool :=
  includes line (keywordText k).

(** The keyword that classifies a line: the first one, in the order PACS,
    CORS, TRIANGULATION, VERTICAL, that the line contains. *)
Definition classify (line : string) : option Keyword :=
  List.find (hasKeyword line) [PACS; CORS; TRIANGULATION; VERTICAL].

(** The fields of a block of lines applied to one object, line by line. *)
Definition extractBlock (lines : list string) (b : Benchmark) : Benchmark :=
  fold_left (fun b' line => extractFields line b') lines b.

(** A line that is no boundary line. *)
Definition inside (line : string) : Prop :=
  includes line boundaryMarker = false.

(** The number of boundary lines of a file. *)
Definition boundaryLines (lines : list string) : nat :=
  length (List.filter (fun l => includes l boundaryMarker) lines).

(** One when a record is open, zero before the first boundary line. *)
Definition openRecords (st : State) : nat :=
  match currentBenchmark st with
  | Some _ => 1
  | None => 0
  end.


(** The place of a keyword in the order the source tests them. *)
Definition rank (k : Keyword) : nat :=
  match k with
  | PACS => 0
  | CORS => 1
  | TRIANGULATION => 2
  | VERTICAL => 3
  end.

(** The keyword [k] is the one that appears last in the line: the line has
    it, and no keyword occurs in what follows it. *)
Definition occursLast (line : string) (k : Keyword) : Prop :=
  exists before after,
    line = String.append before (String.append (keywordText k) after)
    /\ forall k', hasKeyword after k' = false.

(** A line that carries none of the tags the extraction rules look for. *)
Definition untagged (line : string) : Prop :=
  includes line "PID" = false
  /\ includes line "POSITION-" = false
  /\ includes line "ELLIP HT-" = false
  /\ includes line "ORTHO HEIGHT" = false
  /\ includes line "DESIGNATION" = false
  /\ classify line = None.

(** The identifier of every object of a list is [i]. *)
Definition allHaveId (i : string) (bs : list Benchmark) : bool :=
  forallb (fun b => match id b with
                    | Some i' => String.eqb i' i
                    | None => false
                    end) bs.

(** The invariant of a call:

    [this.benchmarks] is what it was at entry followed by the references
    pushed since, [benchmarkCount] of them; every reference is allocated;
    every object pushed since entry passes the validator. *)
Definition passes (st : State) (r : ref) : Prop :=
  exists b, heap st !! r = Some b /\ isComplete b = true.

Record invariant (benchmarks0 : list ref) (st : State) : Prop :=
  { inv_allocated : Forall (fun r => r < length (heap st)) (benchmarks st);
    inv_pushed : exists pushed,
        benchmarks st = benchmarks0 ++ pushed
        /\ length pushed = benchmarkCount st
        /\ Forall (passes st) pushed }.

(** While the loop runs, the open object is allocated and is not one of
    the pushed ones, and the count is below the limit. *)
Record running (st : State) : Prop :=
  { run_open : forall r, currentBenchmark st = Some r ->
                         r < length (heap st) /\ r ∉ benchmarks st;
    run_below : benchmarkCount st < maxBenchmarks }.

End Readings.

(** ** Sample datasheets *)

Module Samples.
Import JS Regex NGSDatasheetParser.

Definition filePath : string := "/srv/ngs/data/datasheets/AK/AK.txt".
Definition stateCode : string := "AK".

Definition boundaryLine : string :=
  "1        National Geodetic Survey, Retrieval Date = JULY 20, 2011".

(** Scenario A of the specification: a complete record, then a record with
    an identifier and no position. *)
Definition scenarioA : list string :=
  [ boundaryLine;
    " AB1234  PID         -  AB1234";
    " AB1234* NAD 83(2011) POSITION- 40 0 0.00(N) 75 0 0.00(W)   ADJUSTED";
    " AB1234  DESIGNATION -  TEST POINT";
    boundaryLine;
    " AB1235  PID         -  AB1235" ].

(** A complete record on the equator. *)
Definition onEquator : list string :=
  [ boundaryLine;
    " AA0001  PID         -  AA0001";
    " AA0001* NAD 83(2011) POSITION-  0 00 00.00000(N) 075 00 00.00000(W)   ADJUSTED" ].

(** The same record one second of arc north of the equator. *)
Definition nearEquator : list string :=
  [ boundaryLine;
    " AA0001  PID         -  AA0001";
    " AA0001* NAD 83(2011) POSITION-  0 00 01.00000(N) 075 00 00.00000(W)   ADJUSTED" ].

(** A record with two position lines. *)
Definition twoPositions : list string :=
  [ boundaryLine;
    " AB1234  PID         -  AB1234";
    " AB1234* NAD 83(2011) POSITION- 40 0 0.00(N) 75 0 0.00(W)   ADJUSTED";
    " AB1234* NAD 83(1986) POSITION- 41 0 0.00(N) 76 0 0.00(W)   ADJUSTED" ].

(** Scenario B of the specification: both heights, the ellipsoidal first. *)
Definition ellipLine : string := "NAD 83(2011) ELLIP HT- 152.910 (meters)".
Definition orthoLine : string := "NAVD 88 ORTHO HEIGHT - 143.82 (meters)".

Definition scenarioB : list string :=
  [ boundaryLine;
    " AB1234  PID         -  AB1234";
    " AB1234* NAD 83(2011) POSITION- 40 0 0.00(N) 75 0 0.00(W)   ADJUSTED";
    ellipLine;
    orthoLine ].

(** The position line of testable property 2. *)
Definition portlandLine : string :=
  "NAD 83(2011) POSITION- 45 30 0.00(N) 122 30 0.00(W)   ADJUSTED".

(** A position line outside every legal range. *)
Definition outOfRangeLine : string :=
  "NAD 83(2011) POSITION- 999 99 99.5(S) 720 0 0.00(E)   ADJUSTED".

(** A boundary line that also carries a keyword of the type rule. *)
Definition boundaryWithKeyword : string :=
  "1        National Geodetic Survey, Retrieval Date = JULY 20, 2011   VERTICAL".

(** A state with one open, empty record: what a first boundary line
    leaves. *)
Definition opened : State :=
  mkState [newBenchmark stateCode] [] (Some 0) 1 0.

(** One complete record, and a file of a thousand of them. *)
Definition completeBlock : list string :=
  [ boundaryMarker; "PID - AB1234"; "POSITION- 40 0 0.00(N) 75 0 0.00(W)" ].

Definition thousandRecords : list string :=
  concat (replicate 1000 completeBlock).

(** The object a complete record of the file is before it is saved. *)
Definition completeRecord : Benchmark :=
  {| id := Some "AB1234"; name := None; type := "Control Point";
     latitude := Some 40%float; longitude := Some (-75)%float;
     elevation := None; state := stateCode; description := None;
     datasheet_url := None |}.

(** One more complete record, with an identifier of its own. *)
Definition lateBlock : list string :=
  [ boundaryMarker; "PID - ZZ9999"; "POSITION- 10 0 0.00(N) 20 0 0.00(W)" ].

End Samples.

(** ** What a match means

    The words a pattern denotes, with the groups they fill: the reading of
    the patterns against which the backtracking matcher is proved sound. *)

Module RegexSemantics.
Import JS Regex.

(** Every character of the string is in the class. *)
Fixpoint allChars (p : ascii -> bool) (s : string) : bool :=
  match s with
  | EmptyString => true
  | String c s' => p c && allChars p s'
  end.

(** [denotes r w cs]: the word [w] matches all of [r], and [cs] are the
    texts of the groups of [r], in the order of their closing. *)
Inductive denotes : regex -> string -> list string -> Prop :=
| denotes_Str lit : denotes (Str lit) lit []
| denotes_Cls p c : p c = true -> denotes (Cls p) (String c EmptyString) []
| denotes_Star p w : allChars p w = true -> denotes (Star p) w []
| denotes_Plus p c w :
    p c = true -> allChars p w = true -> denotes (Plus p) (String c w) []
| denotes_Seq r1 r2 w1 w2 cs1 cs2 :
    denotes r1 w1 cs1 -> denotes r2 w2 cs2 ->
    denotes (Seq r1 r2) (String.append w1 w2) (cs1 ++ cs2)
| denotes_Alt_l r1 r2 w cs : denotes r1 w cs -> denotes (Alt r1 r2) w cs
| denotes_Alt_r r1 r2 w cs : denotes r2 w cs -> denotes (Alt r1 r2) w cs
| denotes_Grp r w cs : denotes r w cs -> denotes (Grp r) w (cs ++ [w]).

(** A string of one or more capital letters and digits: the shape of a
    point identifier. *)
Definition pidLike (s : string) : bool :=
  truthyString s && allChars upperOrDigit s.

End RegexSemantics.

(** ** Further readings of the parser, for the properties beyond the claims *)

Module MoreReadings.
Import JS Regex RegexSemantics NGSDatasheetParser Readings.

(** The identifier a PID line yields. *)
Definition pidOf (line : string) : option string :=
  if includes line "PID" && includes line "-" then
    match matchRegex line pidPattern with
    | Some m => Some (group m 1)
    | None => None
    end
  else None.

(** The name a designation line yields. *)
Definition nameOf (line : string) : option string :=
  if includes line "DESIGNATION" && includes line "-" then
    match matchRegex line namePattern with
    | Some m => Some (trim (group m 1))
    | None => None
    end
  else None.

(** The reading of the last line of a block that has one. *)
Definition lastReading {A : Type} (reading : string -> option A)
  (lines : list string) : option A :=
  fold_left (fun acc line => match reading line with
                             | Some v => Some v
                             | None => acc
                             end) lines None.

(** The verdict of the validator on the record of a block, read off the
    lines: the last PID line and the last position line decide. *)
Definition verdict (lines : list string) : bool :=
  match lastReading positionOf lines, lastReading pidOf lines with
  | Some (la, lo), Some _ => truthyNumber la && truthyNumber lo
  | _, _ => false
  end.

(** The state of a call seen from a parser that already holds the objects
    [heap0] and the references [benchmarks0]: every reference of the call
    is moved past the objects that were there. *)
Definition relocate (heap0 : list Benchmark) (benchmarks0 : list ref)
  (st : State) : State :=
  {| heap := heap0 ++ heap st;
     benchmarks := benchmarks0 ++ map (fun r => length heap0 + r) (benchmarks st);
     currentBenchmark :=
       option_map (fun r => length heap0 + r) (currentBenchmark st);
     lineCount := lineCount st;
     benchmarkCount := benchmarkCount st |}.

(** The same state with [k] more lines counted. *)
Definition addLines (k : nat) (st : State) : State :=
  {| heap := heap st; benchmarks := benchmarks st;
     currentBenchmark := currentBenchmark st;
     lineCount := k + lineCount st;
     benchmarkCount := benchmarkCount st |}.

Definition mapFlow (g : State -> State) (f : Flow) : Flow :=
  match f with
  | Continue st => Continue (g st)
  | Break st => Break (g st)
  end.

(** The five labels the type rule and the object literal can give. *)
Definition typeLabels : list string :=
  [ "Control Point"; "Primary Airport Control"; "CORS Station";
    "Triangulation Station"; "Vertical Control" ].

(** The description and the address a save gives a record of type [t]. *)
Definition descriptionFor (stateCode t : string) : string :=
  String.append "NGS " (String.append t (String.append " control point in " stateCode)).

Definition urlFor (filePath stateCode : string) : string :=
  String.append "/data/datasheets/"
    (String.append stateCode (String.append "/" (basename filePath))).

(** What holds of an object the call has allocated and not saved. *)
Definition unsavedShape (stateCode : string) (b : Benchmark) : Prop :=
  state b = stateCode
  /\ description b = None
  /\ datasheet_url b = None
  /\ (id b = None \/ exists i, id b = Some i /\ pidLike i = true)
  /\ In (type b) typeLabels.

(** What holds of an object the call has saved. *)
Definition savedShape (filePath stateCode : string) (b : Benchmark) : Prop :=
  isComplete b = true
  /\ state b = stateCode
  /\ description b = Some (descriptionFor stateCode (type b))
  /\ datasheet_url b = Some (urlFor filePath stateCode)
  /\ (exists i, id b = Some i /\ pidLike i = true)
  /\ In (type b) typeLabels.

(** The invariant of a call on a new parser: every reference pushed points
    to a saved object, as many as counted. *)
Definition savedAt (filePath stateCode : string) (st : State) (r : ref) : Prop :=
  exists b, heap st !! r = Some b /\ savedShape filePath stateCode b.

Record shaped (filePath stateCode : string) (st : State) : Prop :=
  { shaped_pushed : Forall (savedAt filePath stateCode st) (benchmarks st);
    shaped_count : length (benchmarks st) = benchmarkCount st }.

(** While the loop runs the open object is unsaved and not pushed. *)
Definition openUnsaved (stateCode : string) (st : State) : Prop :=
  forall r, currentBenchmark st = Some r ->
    (r ∉ benchmarks st)
    /\ exists b, heap st !! r = Some b /\ unsavedShape stateCode b.

(** After a [break] the open object is the one pushed last. *)
Definition openPushed (st : State) : Prop :=
  forall r, currentBenchmark st = Some r -> r ∈ benchmarks st.

End MoreReadings.

(** ** The batch runner and the summary

    [processAllDatasheets] and [getSummary] of the same class. The
    directory tree is data: what [fs.readdir] lists under the datasheet
    directory, what [fs.stat] says of each entry, and for a directory the
    files [fs.readdir] lists in it, each with the lines [readline] delivers.
    A tree that cannot be read (the [catch] of [processAllDatasheets]) and
    the writing of the result by [saveBenchmarks] are outside the model. *)

Module BatchRunner.
Import JS Regex NGSDatasheetParser.

(** [s.endsWith(suffix)] *)
Definition endsWith (s suffix : string) : bool :=
  (String.length suffix <=? String.length s)
  && String.eqb (dropStr (String.length s - String.length suffix) s) suffix.

(** [path.join(a, b)] for a directory path [a] and the name [b] of one of
    its entries, as [fs.readdir] lists it. *)
Definition pathJoin (a b : string) : string :=
  String.append a (String.append "/" b).

Record DirEntry : Type := mkDirEntry
  { entryName : string;
    isDirectory : bool;
    files : list (string * list string) }.

(** The parser object between two calls, and the two counters of
    [processAllDatasheets]. *)
Record Batch : Type := mkBatch
  { objects : list Benchmark;
    this_benchmarks : list ref;
    totalBenchmarks : nat;
    processedStates : nat }.

Definition maxStates : nat := 10.

(** [file.endsWith('.txt') || file.endsWith('.dat')] *)
Definition isDatasheet (file : string) : bool :=
  endsWith file ".txt" || endsWith file ".dat".

(** [stat.isDirectory() && folder.length <= 3 && folder !== 'Zips'] *)
Definition eligible (e : DirEntry) : bool :=
  isDirectory e
  && (String.length (entryName e) <=? 3)
  && negb (String.eqb (entryName e) "Zips").

(** The call of [parseDatasheetFile] and [totalBenchmarks += count]. *)
Definition parseInto (lines : list string) (filePath stateCode : string)
  (bt : Batch) : Batch :=
  let st := parseDatasheetFile lines filePath stateCode
              (objects bt) (this_benchmarks bt) in
  {| objects := heap st;
     this_benchmarks := benchmarks st;
     totalBenchmarks := totalBenchmarks bt + benchmarkCount st;
     processedStates := processedStates bt |}.

(** [for (const file of files) { ... break; }]: the first file with a
    datasheet extension is parsed, the others are not looked at. *)
Fixpoint forFiles (folderPath folder : string)
  (fs : list (string * list string)) (bt : Batch) : Batch :=
  match fs with
  | [] => bt
  | (file, lines) :: rest =>
      if isDatasheet file then
        parseInto lines (pathJoin folderPath file) folder bt
      else forFiles folderPath folder rest bt
  end.

(** The body of the loop over the folders, after the test of [maxStates]. *)
Definition processFolder (datasheetDir : string) (e : DirEntry) (bt : Batch)
  : Batch :=
  if eligible e then
    let bt1 :=
      forFiles (pathJoin datasheetDir (entryName e)) (entryName e) (files e) bt in
    {| objects := objects bt1;
       this_benchmarks := this_benchmarks bt1;
       totalBenchmarks := totalBenchmarks bt1;
       processedStates := S (processedStates bt1) |}
  else bt.

(** [for (const folder of stateFolders) { if (processedStates >= maxStates)
    break; ... }] *)
Fixpoint forFolders (datasheetDir : string) (folders : list DirEntry)
  (bt : Batch) : Batch :=
  match folders with
  | [] => bt
  | e :: rest =>
      if maxStates <=? processedStates bt then bt
      else forFolders datasheetDir rest (processFolder datasheetDir e bt)
  end.

(** [processAllDatasheets()] on a parser that holds [objects0] and
    [benchmarks0]: the parser and the counters when it returns. *)
Definition processAllDatasheets (datasheetDir : string)
  (stateFolders : list DirEntry)
  (objects0 : list Benchmark) (benchmarks0 : list ref) : Batch :=
  forFolders datasheetDir stateFolders
    {| objects := objects0; this_benchmarks := benchmarks0;
       totalBenchmarks := 0; processedStates := 0 |}.

(** The objects [this.benchmarks] refers to, in order. *)
Definition collected (bt : Batch) : list Benchmark :=
  omap (fun r => objects bt !! r) (this_benchmarks bt).

(** *** The summary *)

Record Summary : Type := mkSummary
  { total : nat;
    byType : gmap string nat;
    byState : gmap string nat }.

(** [obj[k] = (obj[k] || 0) + 1] on an object used as a map from keys to
    counts, for a key that is no property name inherited from
    [Object.prototype]. *)
Definition countKey (k : string) (obj : gmap string nat) : gmap string nat :=
  <[k := default 0 (obj !! k) + 1]> obj.

(** The property names every object literal inherits. *)
Definition inheritedNames : list string :=
  [ "constructor"; "__proto__"; "hasOwnProperty"; "isPrototypeOf";
    "propertyIsEnumerable"; "toLocaleString"; "toString"; "valueOf";
    "__defineGetter__"; "__defineSetter__"; "__lookupGetter__";
    "__lookupSetter__" ].

Definition ownKey (k : string) : Prop := ~ In k inheritedNames.

(** [getSummary()] over the objects of [this.benchmarks]. *)
Definition getSummary (bs : list Benchmark) : Summary :=
  fold_left
    (fun summary benchmark =>
       {| total := total summary;
          byType := countKey (type benchmark) (byType summary);
          byState := countKey (state benchmark) (byState summary) |})
    bs
    {| total := length bs; byType := ∅; byState := ∅ |}.

(** *** What the batch runner selects, read off the tree *)

(** A call of [parseDatasheetFile]: the lines of the file and the two
    arguments. *)
Record Job : Type := mkJob
  { jobLines : list string;
    jobPath : string;
    jobState : string }.

(** The file of a folder that gets parsed: the first with a datasheet
    extension. *)
Definition jobOf (datasheetDir : string) (e : DirEntry) : option Job :=
  match List.find (fun f => isDatasheet (fst f)) (files e) with
  | Some (file, lines) =>
      Some {| jobLines := lines;
              jobPath := pathJoin (pathJoin datasheetDir (entryName e)) file;
              jobState := entryName e |}
  | None => None
  end.

(** The folders that get processed: the first [maxStates] eligible ones. *)
Definition selectedFolders (stateFolders : list DirEntry) : list DirEntry :=
  take maxStates (List.filter eligible stateFolders).

Definition jobs (datasheetDir : string) (stateFolders : list DirEntry)
  : list Job :=
  omap (jobOf datasheetDir) (selectedFolders stateFolders).

(** What one job gives on a parser of its own. *)
Definition jobCollection (j : Job) : list Benchmark :=
  collection (parseFresh (jobLines j) (jobPath j) (jobState j)).

(** The sum of the counts of a map. *)
Definition sumCounts (m : gmap string nat) : nat :=
  map_fold (fun _ n acc => n + acc) 0 m.

(** The number of objects whose key is [k]. *)
Definition occurrences (key : Benchmark -> string) (k : string)
  (bs : list Benchmark) : nat :=
  length (List.filter (fun b => String.eqb (key b) k) bs).

End BatchRunner.

(** ** Further samples *)

Module MoreSamples.
Import JS Regex NGSDatasheetParser.

(** A parser that already holds one saved record. *)
Definition earlierHeap : list Benchmark :=
  [ describe "/srv/ngs/data/datasheets/AL/AL.txt" "AL" Samples.completeRecord ].

Definition earlierBenchmarks : list ref := [0].

(** Lines that precede the first boundary line of a file. *)
Definition preamble : list string :=
  [ "";
    " DATABASE = NGSIDB , PROGRAM = datasheet95, VERSION = 8.12.5.3";
    " AB0001  PID         -  AB0001" ].

(** The lines of a record after its boundary line. *)
Definition recordLines : list string :=
  [ " AB1234  PID         -  AB1234";
    " AB1234  DESIGNATION -  TEST POINT";
    " AB1234* NAD 83(2011) POSITION- 40 0 0.00(N) 75 0 0.00(W)   ADJUSTED" ].

(** A datasheet directory: two state folders with a datasheet file, the
    folder of the archives, a stray file, and a state folder without a
    datasheet file. *)
Definition tree : list BatchRunner.DirEntry :=
  [ BatchRunner.mkDirEntry "AK" true
      [ ("readme.md", [ "not a datasheet" ]);
        ("AK.txt", Samples.scenarioA);
        ("AK_old.txt", Samples.scenarioB) ];
    BatchRunner.mkDirEntry "Zips" true [ ("AK.zip", []) ];
    BatchRunner.mkDirEntry "inventory.json" false [];
    BatchRunner.mkDirEntry "AL" true [];
    BatchRunner.mkDirEntry "CA" true [ ("CA.dat", Samples.scenarioB) ] ].

(** The records the two datasheet files of [tree] give. *)
Definition treeRecords : list Benchmark :=
  BatchRunner.collected
    (BatchRunner.processAllDatasheets "/srv/ngs/data/datasheets" tree [] []).

End MoreSamples.

(** ** The model on small inputs *)

Module Checks.
Import JS Regex NGSDatasheetParser Readings.

Example parseFloat_decimal : parseFloat "143.82" = 143.82%float.
Proof. vm_compute. reflexivity. Qed.

Example parseFloat_longest_prefix : parseFloat "1.2.3" = 1.2%float.
Proof. vm_compute. reflexivity. Qed.

Example parseFloat_trailing_dot : parseFloat "5." = 5%float.
Proof. vm_compute. reflexivity. Qed.

Example parseFloat_lone_dot : parseFloat "." = NaN.
Proof. vm_compute. reflexivity. Qed.

Example parseFloat_negative : parseFloat "-12.5" = (-12.5)%float.
Proof. vm_compute. reflexivity. Qed.

Example parseInt_leading_zero : parseInt "075" = 75%float.
Proof. vm_compute. reflexivity. Qed.

Example parseInt_rounds_to_even : parseInt "9007199254740993" = 9007199254740992%float.
Proof. vm_compute. reflexivity. Qed.

Example NaN_is_falsy : truthyNumber NaN = false.
Proof. vm_compute. reflexivity. Qed.

Example negative_zero_is_falsy : truthyNumber (-0)%float = false.
Proof. vm_compute. reflexivity. Qed.

Example trim_both_ends : trim "  TEST POINT  " = "TEST POINT".
Proof. vm_compute. reflexivity. Qed.

Example basename_of_path : basename Samples.filePath = "AK.txt".
Proof. vm_compute. reflexivity. Qed.

Example match_pid :
  matchRegex " DB0629  PID         -  DB0629" pidPattern
  = Some ["PID         -  DB0629"; "DB0629"].
Proof. vm_compute. reflexivity. Qed.

Example match_is_leftmost_and_greedy :
  matchRegex "ab 1234x 56x" (seq [Grp (Plus digit); Grp (Plus digit); Str "x"])
  = Some ["1234x"; "123"; "4"].
Proof. vm_compute. reflexivity. Qed.

Example match_position :
  matchRegex Samples.portlandLine coordPattern
  = Some ["45 30 0.00(N) 122 30 0.00(W)";
          "45"; "30"; "0.00"; "N"; "122"; "30"; "0.00"; "W"].
Proof. vm_compute. reflexivity. Qed.

Example match_elevation_alternatives :
  matchRegex Samples.ellipLine elevPattern
  = Some ["ELLIP HT- 152.910 (meters)"; "152.910"]
  /\ matchRegex Samples.orthoLine elevPattern
     = Some ["ORTHO HEIGHT - 143.82 (meters)"; "143.82"].
Proof. split; vm_compute; reflexivity. Qed.

Example lowercase_pid_does_not_match :
  matchRegex "PID - ab1234" pidPattern = None.
Proof. vm_compute. reflexivity. Qed.

(** Scenario A of the specification: exactly one record. *)
Example scenarioA_collection :
  collection (parseFresh Samples.scenarioA Samples.filePath Samples.stateCode)
  = [ {| id := Some "AB1234"; name := Some "TEST POINT";
         type := "Control Point";
         latitude := Some 40%float; longitude := Some (-75)%float;
         elevation := None; state := "AK";
         description := Some "NGS Control Point control point in AK";
         datasheet_url := Some "/data/datasheets/AK/AK.txt" |} ].
Proof. vm_compute. reflexivity. Qed.

(** A file without a boundary line yields no record. *)
Example no_boundary_no_record :
  collection (parseFresh (tail Samples.scenarioB) Samples.filePath Samples.stateCode)
  = [].
Proof. vm_compute. reflexivity. Qed.

End Checks.

(** ** Properties of the field extractor *)

Module FieldExtractor.
Import JS Regex NGSDatasheetParser Readings.

(** Each rule written through its reading. *)
Lemma parseCoordinates_reading line b :
  parseCoordinates line b =
  match positionOf line with
  | Some (la, lo) => set_longitude (Some lo) (set_latitude (Some la) b)
  | None => b
  end.
Proof.
  unfold parseCoordinates, positionOf, positionMatch.
  destruct (positionGuard line); [|reflexivity].
  destruct (matchRegex line coordPattern) as [m|]; reflexivity.
Qed.

Lemma parseElevation_reading line b :
  parseElevation line b =
  match elevationOf line with
  | Some v => set_elevation (Some v) b
  | None => b
  end.
Proof.
  unfold parseElevation, elevationOf.
  destruct (includes line "ELLIP HT-" || includes line "ORTHO HEIGHT");
    [|reflexivity].
  destruct (matchRegex line elevPattern); reflexivity.
Qed.

Lemma determineType_reading line b :
  determineType line b =
  match classify line with
  | Some k => set_type (category k) b
  | None => b
  end.
Proof.
  unfold determineType, classify, hasKeyword. simpl.
  destruct (includes line "PACS"); [reflexivity|].
  destruct (includes line "CORS"); [reflexivity|].
  destruct (includes line "TRIANGULATION"); [reflexivity|].
  destruct (includes line "VERTICAL"); reflexivity.
Qed.

(** Which fields each rule leaves alone. *)
Ltac rule_cases :=
  repeat match goal with
         | |- context [if ?c then _ else _] => destruct c
         | |- context [match ?o with Some _ => _ | None => _ end] => destruct o
         | |- context [let (_, _) := ?p in _] => destruct p
         end;
  try reflexivity.

Lemma parsePID_frame line b :
  let b' := parsePID line b in
  latitude b' = latitude b /\ longitude b' = longitude b
  /\ elevation b' = elevation b /\ type b' = type b.
Proof. unfold parsePID. rule_cases; repeat split. Qed.

Lemma parseCoordinates_frame line b :
  let b' := parseCoordinates line b in
  id b' = id b /\ elevation b' = elevation b /\ type b' = type b.
Proof. rewrite parseCoordinates_reading. rule_cases; repeat split. Qed.

Lemma parseElevation_frame line b :
  let b' := parseElevation line b in
  id b' = id b /\ latitude b' = latitude b /\ longitude b' = longitude b
  /\ type b' = type b.
Proof. rewrite parseElevation_reading. rule_cases; repeat split. Qed.

Lemma parseDesignation_frame line b :
  let b' := parseDesignation line b in
  id b' = id b /\ latitude b' = latitude b /\ longitude b' = longitude b
  /\ elevation b' = elevation b /\ type b' = type b.
Proof. unfold parseDesignation. rule_cases; repeat split. Qed.

Lemma determineType_frame line b :
  let b' := determineType line b in
  id b' = id b /\ latitude b' = latitude b /\ longitude b' = longitude b
  /\ elevation b' = elevation b.
Proof. rewrite determineType_reading. rule_cases; repeat split. Qed.

(** The coordinates after a line: those of the line when it is a matching
    position line, whatever the object held before; unchanged otherwise. *)
Lemma extractFields_coordinates line b :
  (latitude (extractFields line b), longitude (extractFields line b)) =
  match positionOf line with
  | Some (la, lo) => (Some la, Some lo)
  | None => (latitude b, longitude b)
  end.
Proof.
  unfold extractFields.
  destruct (determineType_frame line
    (parseDesignation line (parseElevation line (parseCoordinates line (parsePID line b)))))
    as (_ & -> & -> & _).
  destruct (parseDesignation_frame line
    (parseElevation line (parseCoordinates line (parsePID line b))))
    as (_ & -> & -> & _).
  destruct (parseElevation_frame line (parseCoordinates line (parsePID line b)))
    as (_ & -> & -> & _).
  rewrite parseCoordinates_reading.
  destruct (parsePID_frame line b) as (Hla & Hlo & _).
  destruct (positionOf line) as [[la lo]|]; simpl; [reflexivity|].
  by rewrite Hla, Hlo.
Qed.

Lemma extractFields_elevation line b :
  elevation (extractFields line b) =
  match elevationOf line with
  | Some v => Some v
  | None => elevation b
  end.
Proof.
  unfold extractFields.
  destruct (determineType_frame line
    (parseDesignation line (parseElevation line (parseCoordinates line (parsePID line b)))))
    as (_ & _ & _ & ->).
  destruct (parseDesignation_frame line
    (parseElevation line (parseCoordinates line (parsePID line b))))
    as (_ & _ & _ & -> & _).
  rewrite parseElevation_reading.
  destruct (parseCoordinates_frame line (parsePID line b)) as (_ & He & _).
  destruct (parsePID_frame line b) as (_ & _ & He' & _).
  destruct (elevationOf line); simpl; [reflexivity|].
  by rewrite He, He'.
Qed.

Lemma extractFields_type line b :
  type (extractFields line b) =
  match classify line with
  | Some k => category k
  | None => type b
  end.
Proof.
  unfold extractFields. rewrite determineType_reading.
  destruct (parseDesignation_frame line
    (parseElevation line (parseCoordinates line (parsePID line b))))
    as (_ & _ & _ & _ & Ht1).
  destruct (parseElevation_frame line (parseCoordinates line (parsePID line b)))
    as (_ & _ & _ & Ht2).
  destruct (parseCoordinates_frame line (parsePID line b)) as (_ & _ & Ht3).
  destruct (parsePID_frame line b) as (_ & _ & _ & Ht4).
  destruct (classify line); simpl; [reflexivity|].
  by rewrite Ht1, Ht2, Ht3, Ht4.
Qed.

(** *** The last line that sets a field decides it

    For a field [f] that a line either sets to its reading or leaves alone,
    the value after a block is the reading of the last line that has one. *)
Section LastWins.
Context {A : Type} (f : Benchmark -> A) (reading : string -> option A).
Hypothesis step : forall line b,
  f (extractFields line b) =
  match reading line with
  | Some v => v
  | None => f b
  end.

Lemma extractBlock_silent lines b :
  Forall (fun l => reading l = None) lines ->
  f (extractBlock lines b) = f b.
Proof.
  intros H. revert b. induction H as [|l ls Hl _ IH]; intros b; [reflexivity|].
  unfold extractBlock in *. simpl. rewrite IH, step, Hl. reflexivity.
Qed.

Lemma extractBlock_last pre line post b v :
  reading line = Some v ->
  Forall (fun l => reading l = None) post ->
  f (extractBlock (pre ++ line :: post) b) = v.
Proof.
  intros Hline Hpost. unfold extractBlock.
  rewrite fold_left_app. simpl.
  change (f (extractBlock post
    (extractFields line (fold_left (fun b' l => extractFields l b') pre b))) = v).
  rewrite extractBlock_silent by exact Hpost.
  rewrite step, Hline. reflexivity.
Qed.
End LastWins.

End FieldExtractor.

(** ** Properties of the record builder *)

Module RecordBuilder.
Import JS Regex NGSDatasheetParser Readings.

(** The validator looks at the identifier and the coordinates only, and
    saving an object changes none of them. *)
Lemma describe_complete filePath stateCode b :
  isComplete (describe filePath stateCode b) = isComplete b.
Proof. reflexivity. Qed.

Lemma describe_fields filePath stateCode b :
  let b' := describe filePath stateCode b in
  id b' = id b /\ latitude b' = latitude b /\ longitude b' = longitude b
  /\ elevation b' = elevation b /\ type b' = type b /\ name b' = name b
  /\ state b' = state b.
Proof. repeat split. Qed.

(** Saving twice is saving once: the description is kept once it is set,
    and the address is the same. *)
Lemma describe_idempotent filePath stateCode b :
  describe filePath stateCode (describe filePath stateCode b)
  = describe filePath stateCode b.
Proof.
  unfold describe. destruct b as [i n t la lo e s d u]. simpl.
  destruct d as [[|c d]|]; reflexivity.
Qed.

Lemma completeCurrent_Some st r b :
  completeCurrent st = Some (r, b) <->
  currentBenchmark st = Some r /\ heap st !! r = Some b /\ isComplete b = true.
Proof.
  unfold completeCurrent. split.
  - destruct (currentBenchmark st) as [r'|]; [|discriminate].
    destruct (heap st !! r') as [b'|] eqn:Hb; [|discriminate].
    destruct (isComplete b') eqn:Hc; [|discriminate].
    intros [= <- <-]. auto.
  - intros (-> & -> & ->). reflexivity.
Qed.


Section Call.
Variables filePath stateCode : string.

Local Abbreviation boundary := (boundary filePath stateCode).
Local Abbreviation loopBody := (loopBody filePath stateCode).
Local Abbreviation forAwait := (forAwait filePath stateCode).
Local Abbreviation save := (save filePath stateCode).
Local Abbreviation flush := (flush filePath stateCode).
Local Abbreviation describe := (describe filePath stateCode).

(** *** Lines inside a block *)

Lemma loopBody_inside line st :
  inside line -> loopBody line st = Continue (extract line (countLine st)).
Proof. unfold loopBody, NGSDatasheetParser.boundary, inside. by intros ->. Qed.

Lemma extract_open line st r b :
  currentBenchmark st = Some r -> heap st !! r = Some b ->
  extract line st =
  mkState (<[r := extractFields line b]> (heap st)) (benchmarks st)
    (Some r) (lineCount st) (benchmarkCount st).
Proof. unfold extract. by intros -> ->. Qed.

(** Over a block without a boundary line the loop only writes to the open
    object: it ends up as the block's extraction applied to it. *)
Lemma forAwait_block lines : forall st r b,
  Forall inside lines ->
  currentBenchmark st = Some r -> heap st !! r = Some b ->
  forAwait lines st =
  Continue (mkState (<[r := extractBlock lines b]> (heap st)) (benchmarks st)
              (Some r) (lineCount st + length lines) (benchmarkCount st)).
Proof.
  induction lines as [|l ls IH]; intros st r b Hin Hcur Hb.
  - simpl. rewrite list_insert_id by exact Hb. rewrite Nat.add_0_r.
    destruct st; simpl in *. by rewrite Hcur.
  - inversion_clear Hin as [|? ? Hl Hls]. simpl.
    rewrite loopBody_inside by exact Hl.
    rewrite (extract_open l (countLine st) r b) by assumption.
    assert (Hlt : r < length (heap st)) by eauto using lookup_lt_Some.
    rewrite (IH _ r (extractFields l b)); simpl; auto.
    + rewrite list_insert_insert_eq. do 2 f_equal. lia.
    + by apply list_lookup_insert_eq.
Qed.

(** The field [f] of the open object after a block: the reading of the
    last line that has one. *)
Lemma block_last_wins {A : Type} (f : Benchmark -> A)
  (reading : string -> option A)
  (step : forall line b,
      f (extractFields line b) =
      match reading line with Some v => v | None => f b end)
  pre line post st r b v :
  currentBenchmark st = Some r -> heap st !! r = Some b ->
  Forall inside (pre ++ line :: post) ->
  reading line = Some v ->
  Forall (fun l => reading l = None) post ->
  exists st' b',
    forAwait (pre ++ line :: post) st = Continue st'
    /\ currentBenchmark st' = Some r
    /\ heap st' !! r = Some b'
    /\ f b' = v.
Proof.
  intros Hcur Hb Hin Hline Hpost.
  rewrite (forAwait_block _ st r b Hin Hcur Hb).
  eexists _, _. split; [reflexivity|]. simpl. split; [reflexivity|].
  split.
  - apply list_lookup_insert_eq. eauto using lookup_lt_Some.
  - by apply (FieldExtractor.extractBlock_last f reading step).
Qed.

Lemma invariant_enter heap0 benchmarks0 :
  Forall (fun r => r < length heap0) benchmarks0 ->
  invariant benchmarks0 (enter heap0 benchmarks0)
  /\ running (enter heap0 benchmarks0).
Proof.
  intros H. split; split; simpl; auto.
  - exists []. by rewrite app_nil_r.
  - discriminate.
  - unfold maxBenchmarks. lia.
Qed.

Lemma invariant_countLine benchmarks0 st :
  invariant benchmarks0 st -> invariant benchmarks0 (countLine st).
Proof. intros [H1 H2]. split; assumption. Qed.

Lemma running_countLine st : running st -> running (countLine st).
Proof. intros [H1 H2]. split; assumption. Qed.

(** Writing an object that passes the validator over the one at [r] keeps
    every pushed object passing, pushed before or not. *)
Lemma passes_insert st r b r' h' :
  isComplete b = true -> r < length (heap st) ->
  h' = <[r := b]> (heap st) ->
  passes st r' ->
  passes (mkState h' (benchmarks st ++ [r]) (currentBenchmark st)
            (lineCount st) (S (benchmarkCount st))) r'.
Proof.
  intros Hb Hr -> (b' & Hb' & Hc'). unfold passes. simpl.
  destruct (decide (r = r')) as [<-|Hne].
  - exists b. by rewrite list_lookup_insert_eq.
  - exists b'. by rewrite list_lookup_insert_ne.
Qed.

Lemma invariant_save benchmarks0 st r b :
  invariant benchmarks0 st -> completeCurrent st = Some (r, b) ->
  invariant benchmarks0 (save r b st).
Proof.
  intros [Hall (pushed & Hp & Hlen & Hpass)] (Hcur & Hb & Hc)%completeCurrent_Some.
  assert (Hr : r < length (heap st)) by eauto using lookup_lt_Some.
  split; simpl.
  - rewrite length_insert. apply Forall_app. split; [assumption|].
    by constructor.
  - exists (pushed ++ [r]). rewrite Hp, app_assoc, length_app. simpl.
    split; [reflexivity|]. split; [lia|].
    apply Forall_app. split.
    + eapply Forall_impl; [exact Hpass|]. intros r' Hr'.
      assert (H := passes_insert st r (describe b) r' _ Hc Hr eq_refl Hr').
      by rewrite Hp in H.
    + constructor; [|constructor]. exists (describe b). simpl.
      by rewrite list_lookup_insert_eq.
Qed.

Lemma passes_grow st st' r :
  (forall b, heap st !! r = Some b -> heap st' !! r = Some b) ->
  passes st r -> passes st' r.
Proof. intros H (b & Hb & Hc). exists b. auto. Qed.

Lemma invariant_startNew benchmarks0 st :
  invariant benchmarks0 st -> invariant benchmarks0 (startNew stateCode st).
Proof.
  intros [Hall (pushed & Hp & Hlen & Hpass)]. split; simpl.
  - rewrite length_app. simpl. eapply Forall_impl; [exact Hall|].
    simpl. intros; lia.
  - exists pushed. repeat split; try assumption.
    eapply Forall_impl; [exact Hpass|]. intros r. apply passes_grow.
    simpl. intros b. apply lookup_app_l_Some.
Qed.

Lemma running_startNew benchmarks0 st :
  invariant benchmarks0 st -> benchmarkCount st < maxBenchmarks ->
  running (startNew stateCode st).
Proof.
  intros [Hall _] Hlt. split; simpl; [|assumption].
  intros r [= <-]. rewrite length_app. simpl. split; [lia|].
  intros Hin. rewrite Forall_forall in Hall. specialize (Hall _ Hin). lia.
Qed.

Lemma invariant_extract benchmarks0 line st :
  invariant benchmarks0 st -> running st ->
  invariant benchmarks0 (extract line st) /\ running (extract line st).
Proof.
  intros Hinv Hrun. unfold extract.
  destruct (currentBenchmark st) as [r|] eqn:Hcur; [|by split].
  destruct (heap st !! r) as [b|] eqn:Hb; [|by split].
  destruct Hinv as [Hall (pushed & Hp & Hlen & Hpass)].
  destruct Hrun as [Hopen Hbelow]. destruct (Hopen r Hcur) as [Hr Hnotin].
  split; split; simpl.
  - by rewrite length_insert.
  - exists pushed. repeat split; try assumption.
    rewrite Forall_forall in Hpass |- *. intros r' Hr'.
    apply (passes_grow st); [|auto]. simpl. intros b' Hb'.
    rewrite list_lookup_insert_ne; [assumption|].
    intros ->. apply Hnotin. rewrite Hp. apply elem_of_app. by right.
  - intros r' [= <-]. by rewrite length_insert.
  - assumption.
Qed.

(** One iteration keeps the invariant; the loop is left exactly when the
    count reaches the limit. *)
Lemma invariant_loopBody benchmarks0 line st :
  invariant benchmarks0 st -> running st ->
  match loopBody line st with
  | Continue st' => invariant benchmarks0 st' /\ running st'
  | Break st' =>
      invariant benchmarks0 st' /\ benchmarkCount st' = maxBenchmarks
  end.
Proof.
  intros Hinv%invariant_countLine Hrun%running_countLine.
  unfold loopBody, NGSDatasheetParser.boundary.
  destruct (includes line boundaryMarker).
  - destruct (completeCurrent (countLine st)) as [[r b]|] eqn:Hcc.
    + pose proof (invariant_save _ _ _ _ Hinv Hcc) as Hsave.
      destruct (Nat.leb_spec maxBenchmarks
                  (benchmarkCount (save r b (countLine st)))) as [Hge|Hlt].
      * split; [assumption|]. destruct Hrun as [_ Hb]. simpl in *. lia.
      * apply invariant_extract.
        -- by apply invariant_startNew.
        -- by eapply running_startNew.
    + apply invariant_extract.
      * by apply invariant_startNew.
      * eapply running_startNew; [eassumption|]. by destruct Hrun.
  - by apply invariant_extract.
Qed.

Lemma invariant_forAwait benchmarks0 lines : forall st,
  invariant benchmarks0 st -> running st ->
  match forAwait lines st with
  | Continue st' => invariant benchmarks0 st' /\ running st'
  | Break st' =>
      invariant benchmarks0 st' /\ benchmarkCount st' = maxBenchmarks
  end.
Proof.
  induction lines as [|l ls IH]; intros st Hinv Hrun; simpl; [by split|].
  pose proof (invariant_loopBody benchmarks0 l st Hinv Hrun) as H.
  destruct (loopBody l st) as [st1|st1]; [|assumption].
  destruct H. by apply IH.
Qed.

Lemma invariant_flush benchmarks0 st :
  invariant benchmarks0 st -> invariant benchmarks0 (flush st).
Proof.
  intros Hinv. unfold NGSDatasheetParser.flush.
  destruct (completeCurrent st) as [[r b]|] eqn:Hcc; [|assumption].
  by apply invariant_save.
Qed.

Lemma flush_count st :
  benchmarkCount (flush st) <= S (benchmarkCount st).
Proof.
  unfold NGSDatasheetParser.flush.
  destruct (completeCurrent st) as [[r b]|]; simpl; lia.
Qed.

(** *** The loop over a file in two parts, and its counters *)

Lemma forAwait_app lines1 lines2 st :
  forAwait (lines1 ++ lines2) st =
  match forAwait lines1 st with
  | Continue st1 => forAwait lines2 st1
  | Break st1 => Break st1
  end.
Proof.
  revert st. induction lines1 as [|l ls IH]; intros st; simpl; [reflexivity|].
  destruct (loopBody l st); [apply IH|reflexivity].
Qed.

Lemma flow_continue (f : Flow) : isBreak f = false -> f = Continue (flowState f).
Proof. by destruct f. Qed.

Lemma extract_counters line st :
  lineCount (extract line st) = lineCount st
  /\ benchmarkCount (extract line st) = benchmarkCount st
  /\ benchmarks (extract line st) = benchmarks st
  /\ currentBenchmark (extract line st) = currentBenchmark st
  /\ length (heap (extract line st)) = length (heap st).
Proof.
  unfold extract. destruct (currentBenchmark st) as [r|] eqn:Hcur; [|by rewrite Hcur].
  destruct (heap st !! r); simpl; rewrite ?length_insert; by rewrite ?Hcur.
Qed.

(** Every iteration counts its line, also the one that leaves the loop. *)
Lemma lineCount_loopBody line st :
  lineCount (flowState (loopBody line st)) = S (lineCount st).
Proof.
  unfold loopBody, NGSDatasheetParser.boundary.
  destruct (includes line boundaryMarker).
  - destruct (completeCurrent (countLine st)) as [[r b]|].
    + destruct (maxBenchmarks <=? _); simpl; [reflexivity|].
      by destruct (extract_counters line
                     (startNew stateCode (save r b (countLine st)))) as [-> _].
    + simpl. by destruct (extract_counters line
                            (startNew stateCode (countLine st))) as [-> _].
  - simpl. by destruct (extract_counters line (countLine st)) as [-> _].
Qed.

Lemma lineCount_forAwait lines : forall st st',
  forAwait lines st = Continue st' ->
  lineCount st' = lineCount st + length lines.
Proof.
  induction lines as [|l ls IH]; intros st st'; simpl.
  - intros [= <-]. lia.
  - pose proof (lineCount_loopBody l st) as Hl.
    destruct (loopBody l st) as [st1|st1]; [|discriminate].
    intros H. rewrite (IH _ _ H). simpl in Hl. lia.
Qed.

(** The count stays below the limit while the loop runs and is the limit
    when the loop is left early. *)
Lemma count_loopBody line st :
  benchmarkCount st < maxBenchmarks ->
  match loopBody line st with
  | Continue st' => benchmarkCount st' < maxBenchmarks
  | Break st' => benchmarkCount st' = maxBenchmarks
  end.
Proof.
  intros Hlt. unfold loopBody, NGSDatasheetParser.boundary.
  destruct (includes line boundaryMarker).
  - destruct (completeCurrent (countLine st)) as [[r b]|].
    + destruct (Nat.leb_spec maxBenchmarks
                  (benchmarkCount (save r b (countLine st)))) as [Hge|Hlt'].
      * simpl in *. lia.
      * by destruct (extract_counters line
                       (startNew stateCode (save r b (countLine st))))
          as (_ & -> & _).
    + by destruct (extract_counters line (startNew stateCode (countLine st)))
        as (_ & -> & _).
  - by destruct (extract_counters line (countLine st)) as (_ & -> & _).
Qed.

Lemma count_forAwait lines : forall st,
  benchmarkCount st < maxBenchmarks ->
  match forAwait lines st with
  | Continue st' => benchmarkCount st' < maxBenchmarks
  | Break st' => benchmarkCount st' = maxBenchmarks
  end.
Proof.
  induction lines as [|l ls IH]; intros st Hlt; simpl; [assumption|].
  pose proof (count_loopBody l st Hlt) as H.
  destruct (loopBody l st); [by apply IH|assumption].
Qed.

(** A record is saved at most once per boundary line, and only one that an
    earlier boundary line opened: with [n] boundary lines behind, the count
    and the open record together are at most [n]. While the boundary lines
    still to come fit under the limit, the loop is not left. *)
Lemma forAwait_few_boundaries lines : forall st n,
  benchmarkCount st + openRecords st <= n ->
  n + boundaryLines lines <= maxBenchmarks ->
  isBreak (forAwait lines st) = false.
Proof.
  induction lines as [|l ls IH]; intros st n Hn Hmax; simpl; [reflexivity|].
  unfold boundaryLines in Hmax. simpl in Hmax.
  unfold loopBody, NGSDatasheetParser.boundary.
  destruct (includes l boundaryMarker); simpl in Hmax.
  - destruct (completeCurrent (countLine st)) as [[r b]|] eqn:Hcc.
    + apply completeCurrent_Some in Hcc as (Hcur & _).
      assert (Hopen : openRecords st = 1).
      { unfold openRecords. simpl in Hcur. by rewrite Hcur. }
      destruct (Nat.leb_spec maxBenchmarks
                  (benchmarkCount (save r b (countLine st)))) as [Hge|Hlt].
      { simpl in Hge. lia. }
      apply (IH _ (S n)); [|unfold boundaryLines; lia].
      destruct (extract_counters l
                  (startNew stateCode (save r b (countLine st))))
        as (_ & Hc & _ & Hcur' & _).
      unfold openRecords. rewrite Hc, Hcur'. simpl. lia.
    + apply (IH _ (S n)); [|unfold boundaryLines; lia].
      destruct (extract_counters l (startNew stateCode (countLine st)))
        as (_ & Hc & _ & Hcur' & _).
      unfold openRecords. rewrite Hc, Hcur'. simpl. lia.
  - apply (IH _ n); [|unfold boundaryLines; lia].
    destruct (extract_counters l (countLine st)) as (_ & Hc & _ & Hcur' & _).
    unfold openRecords in *. rewrite Hc, Hcur'. simpl. exact Hn.
Qed.

(** A boundary line pushes the open record when it is complete, whether
    the loop goes on after it or is left. *)
Lemma loopBody_pushes line st r b :
  includes line boundaryMarker = true ->
  completeCurrent st = Some (r, b) ->
  benchmarks (flowState (loopBody line st)) = benchmarks st ++ [r].
Proof.
  intros Hline Hcc. unfold loopBody, NGSDatasheetParser.boundary.
  rewrite Hline.
  change (completeCurrent (countLine st)) with (completeCurrent st).
  rewrite Hcc.
  destruct (maxBenchmarks <=? _); simpl; [reflexivity|].
  by destruct (extract_counters line
                 (startNew stateCode (save r b (countLine st))))
    as (_ & _ & -> & _).
Qed.

End Call.
End RecordBuilder.

(** ** The claims of the specification *)

Module Claims.
Import JS Regex NGSDatasheetParser Readings RecordBuilder.

(** What the test of the save sites means for the fields it reads. *)
Lemma isComplete_fields b :
  isComplete b = true ->
  exists la lo i,
    latitude b = Some la /\ longitude b = Some lo /\ id b = Some i
    /\ PrimFloat.eqb la 0 = false /\ PrimFloat.eqb lo 0 = false
    /\ i <> "".
Proof.
  unfold isComplete. intros H.
  apply andb_true_iff in H as [H Hi]. apply andb_true_iff in H as [Hla Hlo].
  destruct (latitude b) as [la|]; [|discriminate].
  destruct (longitude b) as [lo|]; [|discriminate].
  destruct (id b) as [[|c i]|]; try discriminate.
  exists la, lo, (String c i).
  unfold truthyNum, truthyNumber in Hla, Hlo.
  apply andb_true_iff in Hla as [Hla _]. apply andb_true_iff in Hlo as [Hlo _].
  apply negb_true_iff in Hla. apply negb_true_iff in Hlo.
  repeat split; try assumption. discriminate.
Qed.

Lemma zero_latitude_incomplete b la :
  latitude b = Some la -> PrimFloat.eqb la 0 = true -> isComplete b = false.
Proof.
  unfold isComplete, truthyNum, truthyNumber. intros -> ->. reflexivity.
Qed.

Lemma zero_longitude_incomplete b lo :
  longitude b = Some lo -> PrimFloat.eqb lo 0 = true -> isComplete b = false.
Proof.
  unfold isComplete, truthyNum, truthyNumber. intros -> ->.
  by rewrite andb_false_r.
Qed.

(** C1 (the code departs from the claim). The claim: a record is retained
    at finalization if and only if its id, latitude and longitude are
    non-null. The code at a complete record on the equator: when the input
    ends the open record has the id "AA0001", latitude 0 and longitude -75,
    none of them null, and the collection stays empty; the same record one
    second of arc to the north is retained. *)
Theorem equator_record_is_dropped :
  (exists st b,
      forAwait Samples.filePath Samples.stateCode Samples.onEquator (enter [] [])
        = Continue st
      /\ currentBenchmark st = Some 0
      /\ heap st !! 0 = Some b
      /\ id b = Some "AA0001"
      /\ latitude b = Some 0%float
      /\ longitude b = Some (-75)%float
      /\ isComplete b = false)
  /\ benchmarks
       (parseFresh Samples.onEquator Samples.filePath Samples.stateCode) = []
  /\ benchmarks
       (parseFresh Samples.nearEquator Samples.filePath Samples.stateCode) = [0].
Proof.
  split; [|split; vm_compute; reflexivity].
  vm_compute. eexists _, _. repeat split.
Qed.

(** C2. Every record a call adds to the collection has a latitude and a
    longitude that are numbers different from zero and an id that is not
    the empty string: the test of the save sites is JavaScript truthiness,
    so a record whose latitude or longitude is exactly zero fails it and is
    never pushed. *)
Theorem saved_records_are_truthy
  (lines : list string) (filePath stateCode : string)
  (heap0 : list Benchmark) (benchmarks0 : list ref) :
  Forall (fun r => r < length heap0) benchmarks0 ->
  let st := parseDatasheetFile lines filePath stateCode heap0 benchmarks0 in
  (exists pushed,
      benchmarks st = benchmarks0 ++ pushed
      /\ length pushed = benchmarkCount st
      /\ Forall (fun r => exists b la lo i,
                     heap st !! r = Some b
                     /\ latitude b = Some la /\ longitude b = Some lo
                     /\ id b = Some i
                     /\ PrimFloat.eqb la 0 = false
                     /\ PrimFloat.eqb lo 0 = false
                     /\ i <> "") pushed)
  /\ (forall b x, latitude b = Some x -> PrimFloat.eqb x 0 = true ->
                  isComplete b = false)
  /\ (forall b x, longitude b = Some x -> PrimFloat.eqb x 0 = true ->
                  isComplete b = false).
Proof.
  intros Hwf st. split; [|split].
  - destruct (invariant_enter heap0 benchmarks0 Hwf) as [Hinv Hrun].
    pose proof (invariant_forAwait filePath stateCode benchmarks0 lines _ Hinv Hrun)
      as Hloop.
    assert (Hend : invariant benchmarks0
              (flowState (forAwait filePath stateCode lines (enter heap0 benchmarks0)))).
    { destruct (forAwait filePath stateCode lines (enter heap0 benchmarks0));
        by destruct Hloop. }
    apply (invariant_flush filePath stateCode) in Hend.
    destruct Hend as [_ (pushed & Hp & Hlen & Hpass)].
    exists pushed. split; [exact Hp|]. split; [exact Hlen|].
    eapply Forall_impl; [exact Hpass|].
    intros r (b & Hb & Hc).
    destruct (isComplete_fields b Hc) as (la & lo & i & H).
    exists b, la, lo, i. tauto.
  - exact zero_latitude_incomplete.
  - exact zero_longitude_incomplete.
Qed.

Lemma saved_records_are_truthy_witness :
  Forall (fun r => r < length (@nil Benchmark)) [] /\
  exists pushed,
    benchmarks (parseFresh Samples.scenarioA Samples.filePath Samples.stateCode)
      = [] ++ pushed
    /\ length pushed = 1.
Proof.
  split; [constructor|].
  destruct (saved_records_are_truthy Samples.scenarioA Samples.filePath
              Samples.stateCode [] [] (List.Forall_nil _)) as [(pushed & Hp & Hlen & _) _].
  exists pushed. split; [exact Hp|]. exact Hlen.
Defined.

Ltac evaluated := vm_compute; reflexivity.
Ltac each_line := repeat (constructor; [evaluated|]); try constructor.

(** Two floats that compare different are different. *)
Lemma float_neq (x y : float) :
  PrimFloat.eqb x y = false -> PrimFloat.eqb x x = true -> x <> y.
Proof. intros Hxy Hxx <-. congruence. Qed.

(** C3 (the claim fails). The claim: the first matching position line of a
    record decides its coordinates and a later one changes nothing. The
    code at a record with the position lines 40 N 75 W and then 41 N 76 W:
    the record is saved with latitude 41 and longitude -76, not with the 40
    and -75 of its first position line. *)
Lemma later_position_line_overwrites :
  exists b,
    collection (parseFresh Samples.twoPositions Samples.filePath Samples.stateCode)
      = [b]
    /\ positionOf " AB1234* NAD 83(2011) POSITION- 40 0 0.00(N) 75 0 0.00(W)   ADJUSTED"
       = Some (40%float, (-75)%float)
    /\ latitude b = Some 41%float
    /\ longitude b = Some (-76)%float
    /\ latitude b <> Some 40%float
    /\ longitude b <> Some (-75)%float.
Proof.
  eexists. split; [evaluated|]. split; [evaluated|].
  split; [reflexivity|]. split; [reflexivity|].
  split; simpl; intros [= H]; revert H; by apply float_neq.
Qed.

(** C3, amended. Within a record's block the last position line whose
    guard and sextuple pattern match decides latitude and longitude: every
    matching position line overwrites the coordinates, whatever lines,
    matching or not, came before it in the block. *)
Theorem last_position_line_wins
  (filePath stateCode : string) (pre : list string) (line : string)
  (post : list string) (st : State) (r : ref) (b : Benchmark) (la lo : float) :
  currentBenchmark st = Some r ->
  heap st !! r = Some b ->
  Forall inside (pre ++ line :: post) ->
  positionOf line = Some (la, lo) ->
  Forall (fun l => positionOf l = None) post ->
  exists st' b',
    forAwait filePath stateCode (pre ++ line :: post) st = Continue st'
    /\ currentBenchmark st' = Some r
    /\ heap st' !! r = Some b'
    /\ latitude b' = Some la
    /\ longitude b' = Some lo.
Proof.
  intros Hcur Hb Hin Hline Hpost.
  destruct (block_last_wins filePath stateCode
              (fun x => (latitude x, longitude x))
              (fun l => match positionOf l with
                        | Some (la', lo') => Some (Some la', Some lo')
                        | None => None
                        end)) with (pre := pre) (line := line) (post := post)
              (st := st) (r := r) (b := b) (v := (Some la, Some lo))
    as (st' & b' & Hrun & Hcur' & Hb' & Hf); try assumption.
  - intros l x. rewrite FieldExtractor.extractFields_coordinates.
    by destruct (positionOf l) as [[la' lo']|].
  - by rewrite Hline.
  - eapply Forall_impl; [exact Hpost|]. by intros l ->.
  - exists st', b'. injection Hf as Hla Hlo. auto.
Qed.

Lemma last_position_line_wins_witness :
  exists st' b',
    forAwait Samples.filePath Samples.stateCode
      ([ " AB1234  PID         -  AB1234";
         " AB1234* NAD 83(2011) POSITION- 40 0 0.00(N) 75 0 0.00(W)   ADJUSTED" ]
       ++ " AB1234* NAD 83(1986) POSITION- 41 0 0.00(N) 76 0 0.00(W)   ADJUSTED"
       :: [ Samples.ellipLine ])
      Samples.opened = Continue st'
    /\ currentBenchmark st' = Some 0
    /\ heap st' !! 0 = Some b'
    /\ latitude b' = Some 41%float
    /\ longitude b' = Some (-76)%float.
Proof.
  apply (last_position_line_wins _ _ _ _ _ Samples.opened 0
           (newBenchmark Samples.stateCode)).
  - reflexivity.
  - reflexivity.
  - each_line.
  - evaluated.
  - each_line.
Defined.

(** The run over the thousand records of [Samples.thousandRecords], and
    over one more record after them, evaluated once. *)
Lemma thousand_records_run :
  let f := forAwait Samples.filePath Samples.stateCode
             Samples.thousandRecords (enter [] []) in
  let st := flowState f in
  let final := flush Samples.filePath Samples.stateCode
                 (flowState (forAwait Samples.filePath Samples.stateCode
                               Samples.lateBlock st)) in
  isBreak f = false
  /\ benchmarkCount st = 999
  /\ completeCurrent st = Some (999, Samples.completeRecord)
  /\ lineCount final = 3001
  /\ benchmarkCount final = 1001
  /\ allHaveId "AB1234" (collection final) = true.
Proof. vm_compute. repeat split. Qed.

(** C4 (the claim fails). The claim: no per-file cap, every valid record of
    a file is appended however many precede it. The code at a file of a
    thousand complete records followed by one more, with the id "ZZ9999":
    parsed alone the last record is retained, but in the file the loop is
    left at its boundary line, after 3001 of the 3003 lines, and no record
    with that id is in the collection. *)
Lemma record_after_the_limit_is_lost :
  let file := Samples.thousandRecords ++ Samples.lateBlock in
  let st := parseFresh file Samples.filePath Samples.stateCode in
  allHaveId "ZZ9999"
    (collection (parseFresh Samples.lateBlock Samples.filePath Samples.stateCode))
  = true
  /\ length (collection
               (parseFresh Samples.lateBlock Samples.filePath Samples.stateCode)) = 1
  /\ length file = 3003
  /\ lineCount st = 3001
  /\ benchmarkCount st = 1001
  /\ allHaveId "AB1234" (collection st) = true.
Proof.
  intros file st.
  destruct thousand_records_run as (Hno & _ & _ & Hlines & Hcount & Hids).
  assert (Hst : st = flush Samples.filePath Samples.stateCode
                  (flowState (forAwait Samples.filePath Samples.stateCode
                     Samples.lateBlock
                     (flowState (forAwait Samples.filePath Samples.stateCode
                        Samples.thousandRecords (enter [] [])))))).
  { unfold st, file, parseFresh, parseDatasheetFile.
    rewrite forAwait_app. rewrite (flow_continue _ Hno) at 1. reflexivity. }
  rewrite Hst.
  split; [evaluated|]. split; [evaluated|]. split; [evaluated|].
  split; [exact Hlines|]. split; [exact Hcount|exact Hids].
Qed.

(** C4, amended. The number of records a file contributes is capped: the
    loop is left as soon as the count reaches the limit of 1000, so it
    saves at most 1000 records and the save after the loop at most one
    more. Below the limit nothing is skipped: a boundary line pushes the
    open record whenever it is complete, and a file with at most 1000
    boundary lines is read to its last line. *)
Theorem record_count_is_capped
  (lines : list string) (filePath stateCode : string)
  (heap0 : list Benchmark) (benchmarks0 : list ref) :
  let f := forAwait filePath stateCode lines (enter heap0 benchmarks0) in
  maxBenchmarks = 1000
  /\ benchmarkCount
       (parseDatasheetFile lines filePath stateCode heap0 benchmarks0)
     <= S maxBenchmarks
  /\ (isBreak f = true -> benchmarkCount (flowState f) = maxBenchmarks)
  /\ (isBreak f = false -> benchmarkCount (flowState f) < maxBenchmarks)
  /\ (boundaryLines lines <= maxBenchmarks ->
      isBreak f = false /\ lineCount (flowState f) = length lines)
  /\ (forall st line r b,
        includes line boundaryMarker = true ->
        completeCurrent st = Some (r, b) ->
        benchmarks (flowState (loopBody filePath stateCode line st))
        = benchmarks st ++ [r]).
Proof.
  intros f.
  assert (Hstart : benchmarkCount (enter heap0 benchmarks0) < maxBenchmarks).
  { unfold maxBenchmarks. simpl. lia. }
  pose proof (count_forAwait filePath stateCode lines _ Hstart) as Hcount.
  fold f in Hcount.
  split; [reflexivity|]. split; [|split; [|split; [|split]]].
  - unfold parseDatasheetFile. fold f.
    pose proof (flush_count filePath stateCode (flowState f)) as Hflush.
    destruct f; simpl in *; lia.
  - destruct f; [discriminate|]. by intros _.
  - destruct f; [|discriminate]. by intros _.
  - intros Hfew.
    assert (Hno : isBreak f = false).
    { apply (forAwait_few_boundaries filePath stateCode lines _ 0);
        [reflexivity|exact Hfew]. }
    split; [exact Hno|].
    pose proof (lineCount_forAwait filePath stateCode lines
                  (enter heap0 benchmarks0) (flowState f)
                  (flow_continue _ Hno)) as H.
    exact H.
  - intros st line r b. apply loopBody_pushes.
Qed.

(** C5 (the claim fails). The claim: no priority among the keywords, also
    within one line, so the keyword that appears last decides. The code at
    a line whose last keyword is VERTICAL and that also has PACS: the type
    is "Primary Airport Control", in either order of the two keywords. *)
Lemma keyword_priority_within_a_line :
  let line := "PACS AIRPORT SURVEY, VERTICAL CONTROL" in
  occursLast line VERTICAL
  /\ type (extractFields line (newBenchmark Samples.stateCode))
     = "Primary Airport Control"
  /\ type (extractFields "VERTICAL CONTROL, PACS AIRPORT SURVEY"
             (newBenchmark Samples.stateCode))
     = "Primary Airport Control"
  /\ category VERTICAL <> "Primary Airport Control".
Proof.
  split; [|split; [evaluated|split; [evaluated|discriminate]]].
  exists "PACS AIRPORT SURVEY, ", " CONTROL". split; [reflexivity|].
  intros []; evaluated.
Qed.

(** C5, amended. Across the lines of a record's block the last line that
    contains a keyword decides the type; within one line the keywords have
    the fixed priority PACS, CORS, TRIANGULATION, VERTICAL: the first of
    them that the line contains decides, wherever it stands in the line. *)
Theorem last_keyword_line_wins_by_priority
  (filePath stateCode : string) (pre : list string) (line : string)
  (post : list string) (st : State) (r : ref) (b : Benchmark) (k : Keyword) :
  currentBenchmark st = Some r ->
  heap st !! r = Some b ->
  Forall inside (pre ++ line :: post) ->
  classify line = Some k ->
  Forall (fun l => classify l = None) post ->
  (exists st' b',
      forAwait filePath stateCode (pre ++ line :: post) st = Continue st'
      /\ currentBenchmark st' = Some r
      /\ heap st' !! r = Some b'
      /\ type b' = category k)
  /\ hasKeyword line k = true
  /\ (forall k', hasKeyword line k' = true -> rank k <= rank k').
Proof.
  intros Hcur Hb Hin Hline Hpost. split; [|split].
  - destruct (block_last_wins filePath stateCode type
                (fun l => option_map category (classify l)))
      with (pre := pre) (line := line) (post := post)
           (st := st) (r := r) (b := b) (v := category k)
      as (st' & b' & H); try assumption.
    + intros l x. rewrite FieldExtractor.extractFields_type.
      by destruct (classify l).
    + by rewrite Hline.
    + eapply Forall_impl; [exact Hpost|]. by intros l ->.
    + by exists st', b'.
  - unfold classify in Hline. by apply List.find_some in Hline as [_ ?].
  - unfold classify in Hline. simpl in Hline. intros k' Hk'.
    destruct (hasKeyword line PACS) eqn:H1.
    { injection Hline as <-. simpl. lia. }
    destruct (hasKeyword line CORS) eqn:H2.
    { injection Hline as <-. destruct k'; simpl; try lia; congruence. }
    destruct (hasKeyword line TRIANGULATION) eqn:H3.
    { injection Hline as <-. destruct k'; simpl; try lia; congruence. }
    destruct (hasKeyword line VERTICAL) eqn:H4; [|discriminate].
    injection Hline as <-. destruct k'; simpl; try lia; congruence.
Qed.

Lemma last_keyword_line_wins_by_priority_witness :
  exists st' b',
    forAwait Samples.filePath Samples.stateCode
      ([ " AB1234  PID         -  AB1234"; " AB1234  TRIANGULATION STATION" ]
       ++ "VERTICAL CONTROL, CORS ARP" :: [ Samples.ellipLine ])
      Samples.opened = Continue st'
    /\ currentBenchmark st' = Some 0
    /\ heap st' !! 0 = Some b'
    /\ type b' = "CORS Station".
Proof.
  apply (last_keyword_line_wins_by_priority _ _ _ _ _ Samples.opened 0
           (newBenchmark Samples.stateCode) CORS).
  - reflexivity.
  - reflexivity.
  - each_line.
  - evaluated.
  - each_line.
Defined.

Lemma extractFields_untagged line b : untagged line -> extractFields line b = b.
Proof.
  intros (Hpid & Hpos & Hell & Hort & Hdes & Hkey).
  unfold extractFields. rewrite FieldExtractor.determineType_reading, Hkey.
  unfold parseDesignation, parseElevation, parseCoordinates, positionGuard, parsePID.
  rewrite Hpid, Hpos, Hell, Hort, Hdes. reflexivity.
Qed.

(** C6 (the claim fails). The claim: the boundary line itself is not passed
    to the field extractor, so right after it the open record has no field
    set by an extraction rule. The code at a boundary line that also
    contains VERTICAL, as the first line of a file: the record it opens has
    the type "Vertical Control", not the default. *)
Lemma boundary_line_reaches_the_extractor :
  exists st b,
    loopBody Samples.filePath Samples.stateCode Samples.boundaryWithKeyword
      (enter [] []) = Continue st
    /\ currentBenchmark st = Some 0
    /\ heap st !! 0 = Some b
    /\ type b = "Vertical Control"
    /\ b <> newBenchmark Samples.stateCode.
Proof.
  vm_compute. eexists _, _. repeat split. discriminate.
Qed.

(** C6, amended. When the loop goes on after a boundary line, that line has
    pushed the previous record if it was complete and pushed nothing
    otherwise, has installed a new record whose fields are all null except
    [state], the region code, and [type], "Control Point", and has then been
    passed to the field extractor like every other line: right after it the
    open record is the extraction of that line applied to the new record,
    which is the new record itself when the line carries no field tag. *)
Theorem boundary_line_is_extracted
  (filePath stateCode line : string) (st st' : State) :
  includes line boundaryMarker = true ->
  loopBody filePath stateCode line st = Continue st' ->
  currentBenchmark st' = Some (length (heap st))
  /\ heap st' !! length (heap st)
     = Some (extractFields line (newBenchmark stateCode))
  /\ newBenchmark stateCode
     = mkBenchmark None None "Control Point" None None None stateCode None None
  /\ (untagged line ->
      heap st' !! length (heap st) = Some (newBenchmark stateCode))
  /\ (forall r b, completeCurrent st = Some (r, b) ->
        benchmarks st' = benchmarks st ++ [r]
        /\ heap st' !! r = Some (describe filePath stateCode b))
  /\ (completeCurrent st = None -> benchmarks st' = benchmarks st).
Proof.
  intros Hline Hstep.
  unfold loopBody, boundary in Hstep. rewrite Hline in Hstep.
  change (completeCurrent (countLine st)) with (completeCurrent st) in Hstep.
  assert (Hnew : forall st1,
             length (heap st1) = length (heap st) ->
             let st2 := extract line (startNew stateCode st1) in
             currentBenchmark st2 = Some (length (heap st))
             /\ heap st2 = heap st1 ++ [extractFields line (newBenchmark stateCode)]
             /\ benchmarks st2 = benchmarks st1).
  { intros st1 Hlen. unfold extract. simpl.
    rewrite (list_lookup_middle (heap st1) [] _ (length (heap st1)) eq_refl).
    simpl. rewrite Hlen. split; [reflexivity|]. split; [|reflexivity].
    rewrite <- Hlen.
    replace (length (heap st1)) with (length (heap st1) + 0) at 1 by lia.
    by rewrite insert_app_r. }
  destruct (completeCurrent st) as [[r b]|] eqn:Hcc.
  - destruct (maxBenchmarks <=? _); [discriminate|].
    injection Hstep as <-.
    destruct (Hnew (save filePath stateCode r b (countLine st)))
      as (Hcur & Hheap & Hbs).
    { simpl. by rewrite length_insert. }
    assert (Hlookup : (heap (save filePath stateCode r b (countLine st))
                         ++ [extractFields line (newBenchmark stateCode)])
                      !! length (heap st)
                      = Some (extractFields line (newBenchmark stateCode))).
    { apply list_lookup_middle. simpl. by rewrite length_insert. }
    split; [exact Hcur|]. rewrite Hheap.
    split; [exact Hlookup|]. split; [reflexivity|].
    split; [intros Hu; by rewrite Hlookup, extractFields_untagged|].
    split; [|discriminate].
    intros r' b' [= <- <-]. split; [by rewrite Hbs|].
    apply completeCurrent_Some in Hcc as (_ & Hb & _).
    apply lookup_app_l_Some. simpl.
    apply list_lookup_insert_eq. eauto using lookup_lt_Some.
  - injection Hstep as <-.
    destruct (Hnew (countLine st) eq_refl) as (Hcur & Hheap & Hbs).
    assert (Hlookup : (heap (countLine st)
                         ++ [extractFields line (newBenchmark stateCode)])
                      !! length (heap st)
                      = Some (extractFields line (newBenchmark stateCode))).
    { by apply list_lookup_middle. }
    split; [exact Hcur|]. rewrite Hheap.
    split; [exact Hlookup|]. split; [reflexivity|].
    split; [intros Hu; by rewrite Hlookup, extractFields_untagged|].
    split; [discriminate|]. intros _. exact Hbs.
Qed.

Lemma boundary_line_is_extracted_witness :
  let st :=
    flowState (forAwait Samples.filePath Samples.stateCode
                 (take 4 Samples.scenarioA) (enter [] [])) in
  let st' :=
    flowState (loopBody Samples.filePath Samples.stateCode Samples.boundaryLine st) in
  currentBenchmark st' = Some (length (heap st))
  /\ heap st' !! length (heap st) = Some (newBenchmark Samples.stateCode).
Proof.
  intros st st'.
  destruct (boundary_line_is_extracted Samples.filePath Samples.stateCode
              Samples.boundaryLine st st') as (Hcur & _ & _ & Hnew & _).
  - evaluated.
  - evaluated.
  - split; [exact Hcur|]. apply Hnew. repeat split; evaluated.
Defined.

(** C7. When a record's block has both an ellipsoidal-height line and an
    orthometric-height line, the elevation after the block is the height of
    the one that comes later: each matching elevation line overwrites the
    field. In particular the block of "NAD 83(2011) ELLIP HT- 152.910
    (meters)" followed by "NAVD 88 ORTHO HEIGHT - 143.82 (meters)" ends
    with the elevation 143.82, and in the other order with 152.91. *)
Theorem elevation_last_write_wins
  (filePath stateCode : string) (pre : list string) (line : string)
  (post : list string) (st : State) (r : ref) (b : Benchmark) (v : float) :
  currentBenchmark st = Some r ->
  heap st !! r = Some b ->
  Forall inside (pre ++ line :: post) ->
  elevationOf line = Some v ->
  Forall (fun l => elevationOf l = None) post ->
  (exists st' b',
      forAwait filePath stateCode (pre ++ line :: post) st = Continue st'
      /\ currentBenchmark st' = Some r
      /\ heap st' !! r = Some b'
      /\ elevation b' = Some v)
  /\ elevationOf Samples.ellipLine = Some 152.91%float
  /\ elevationOf Samples.orthoLine = Some 143.82%float
  /\ (exists b',
        collection
          (parseFresh Samples.scenarioB Samples.filePath Samples.stateCode) = [b']
        /\ elevation b' = Some 143.82%float)
  /\ elevation (extractBlock [Samples.orthoLine; Samples.ellipLine] b)
     = Some 152.91%float.
Proof.
  intros Hcur Hb Hin Hline Hpost. split; [|split; [|split; [|split]]].
  - destruct (block_last_wins filePath stateCode elevation
                (fun l => option_map Some (elevationOf l)))
      with (pre := pre) (line := line) (post := post)
           (st := st) (r := r) (b := b) (v := Some v)
      as (st' & b' & H); try assumption.
    + intros l x. rewrite FieldExtractor.extractFields_elevation.
      by destruct (elevationOf l).
    + by rewrite Hline.
    + eapply Forall_impl; [exact Hpost|]. by intros l ->.
    + by exists st', b'.
  - evaluated.
  - evaluated.
  - eexists. split; [evaluated|reflexivity].
  - change [Samples.orthoLine; Samples.ellipLine]
      with ([Samples.orthoLine] ++ Samples.ellipLine :: []).
    apply (FieldExtractor.extractBlock_last elevation
             (fun l => option_map Some (elevationOf l))).
    + intros l x. rewrite FieldExtractor.extractFields_elevation.
      by destruct (elevationOf l).
    + evaluated.
    + constructor.
Qed.

Lemma elevation_last_write_wins_witness :
  exists st' b',
    forAwait Samples.filePath Samples.stateCode
      ([ " AB1234  PID         -  AB1234"; Samples.orthoLine ]
       ++ Samples.ellipLine :: [ " AB1234  DESIGNATION -  TEST POINT" ])
      Samples.opened = Continue st'
    /\ currentBenchmark st' = Some 0
    /\ heap st' !! 0 = Some b'
    /\ elevation b' = Some 152.91%float.
Proof.
  apply (elevation_last_write_wins _ _ _ _ _ Samples.opened 0
           (newBenchmark Samples.stateCode)).
  - reflexivity.
  - reflexivity.
  - each_line.
  - evaluated.
  - each_line.
Defined.

(** C8. A matching position line sets the latitude to
    [deg + min/60 + sec/3600] of its first three captures, negated exactly
    when the fourth capture is S, and the longitude to the same expression
    of the next three, negated exactly when the eighth capture is W; no
    range is checked. In particular 45 30 0.00 N, 122 30 0.00 W gives
    (45.5, -122.5). *)
Theorem coordinate_conversion (line : string) (b : Benchmark) (m : list string) :
  positionGuard line = true ->
  matchRegex line coordPattern = Some m ->
  (latitude (extractFields line b)
   = Some (decimalDegrees (parseInt (group m 1)) (parseInt (group m 2))
             (parseFloat (group m 3)) (String.eqb (group m 4) "S"))
   /\ longitude (extractFields line b)
      = Some (decimalDegrees (parseInt (group m 5)) (parseInt (group m 6))
                (parseFloat (group m 7)) (String.eqb (group m 8) "W")))
  /\ (forall deg min sec,
        decimalDegrees deg min sec false = (deg + min / 60 + sec / 3600)%float
        /\ decimalDegrees deg min sec true
           = (- (deg + min / 60 + sec / 3600))%float)
  /\ (latitude (extractFields Samples.portlandLine b) = Some 45.5%float
      /\ longitude (extractFields Samples.portlandLine b) = Some (-122.5)%float).
Proof.
  intros Hguard Hmatch.
  assert (Hpos : positionOf line =
    Some (decimalDegrees (parseInt (group m 1)) (parseInt (group m 2))
            (parseFloat (group m 3)) (String.eqb (group m 4) "S"),
          decimalDegrees (parseInt (group m 5)) (parseInt (group m 6))
            (parseFloat (group m 7)) (String.eqb (group m 8) "W"))).
  { unfold positionOf, positionMatch. by rewrite Hguard, Hmatch. }
  split; [|split].
  - pose proof (FieldExtractor.extractFields_coordinates line b) as H.
    rewrite Hpos in H. cbv beta iota in H. by apply pair_equal_spec in H.
  - intros deg min sec. split; reflexivity.
  - pose proof (FieldExtractor.extractFields_coordinates Samples.portlandLine b) as H.
    replace (positionOf Samples.portlandLine)
      with (Some (45.5%float, (-122.5)%float)) in H by evaluated.
    cbv beta iota in H. by apply pair_equal_spec in H.
Qed.

Lemma coordinate_conversion_witness :
  latitude (extractFields Samples.outOfRangeLine (newBenchmark Samples.stateCode))
  = Some (- (999 + 99 / 60 + 99.5 / 3600))%float
  /\ longitude (extractFields Samples.outOfRangeLine (newBenchmark Samples.stateCode))
     = Some (720 + 0 / 60 + 0 / 3600)%float.
Proof.
  destruct (coordinate_conversion Samples.outOfRangeLine
              (newBenchmark Samples.stateCode)
              ["999 99 99.5(S) 720 0 0.00(E)"; "999"; "99"; "99.5"; "S";
               "720"; "0"; "0.00"; "E"])
    as [[Hla Hlo] _].
  - evaluated.
  - evaluated.
  - split.
    + rewrite Hla. evaluated.
    + rewrite Hlo. evaluated.
Defined.




(** C10. When a boundary line saves the record that brings the count to the
    limit of 1000, the loop is left before a new record is installed: the
    saved record stays the open one, the save after the loop pushes it a
    second time, and the rest of the file is never read. The collection
    ends with the same reference twice, the count returned is 1001, and
    the lines counted are those up to that boundary line, whatever
    follows it. *)
Theorem limit_pushes_the_record_twice
  (filePath stateCode : string) (pre : list string) (line : string)
  (rest : list string) (heap0 : list Benchmark) (benchmarks0 : list ref)
  (st : State) (r : ref) (b : Benchmark) :
  forAwait filePath stateCode pre (enter heap0 benchmarks0) = Continue st ->
  completeCurrent st = Some (r, b) ->
  S (benchmarkCount st) = maxBenchmarks ->
  includes line boundaryMarker = true ->
  let final :=
    parseDatasheetFile (pre ++ line :: rest) filePath stateCode heap0 benchmarks0 in
  isBreak (forAwait filePath stateCode (pre ++ line :: rest)
             (enter heap0 benchmarks0)) = true
  /\ benchmarks final = benchmarks st ++ [r; r]
  /\ heap final = <[r := describe filePath stateCode b]> (heap st)
  /\ currentBenchmark final = Some r
  /\ benchmarkCount final = S maxBenchmarks
  /\ lineCount final = S (length pre).
Proof.
  intros Hpre Hcc Hcount Hline final.
  pose proof (lineCount_forAwait filePath stateCode pre _ _ Hpre) as Hlc.
  simpl in Hlc.
  assert (Hbreak : forAwait filePath stateCode (pre ++ line :: rest)
                     (enter heap0 benchmarks0)
                   = Break (save filePath stateCode r b (countLine st))).
  { rewrite forAwait_app, Hpre. simpl.
    unfold loopBody, boundary. rewrite Hline.
    change (completeCurrent (countLine st)) with (completeCurrent st).
    rewrite Hcc. simpl benchmarkCount. rewrite Hcount.
    by rewrite Nat.leb_refl. }
  apply completeCurrent_Some in Hcc as (Hcur & Hb & Hc).
  assert (Hr : r < length (heap st)) by eauto using lookup_lt_Some.
  unfold final, parseDatasheetFile. rewrite Hbreak. simpl flowState.
  split; [reflexivity|].
  unfold flush.
  rewrite (proj2 (completeCurrent_Some
                    (save filePath stateCode r b (countLine st)) r
                    (describe filePath stateCode b))).
  - simpl. rewrite <- app_assoc, list_insert_insert_eq, describe_idempotent.
    rewrite Hcount, Hlc. repeat split; try assumption.
  - simpl. split; [exact Hcur|]. split; [by apply list_lookup_insert_eq|].
    by rewrite describe_complete.
Qed.

Lemma limit_pushes_the_record_twice_witness :
  let final :=
    parseDatasheetFile (Samples.thousandRecords ++ boundaryMarker :: Samples.lateBlock)
      Samples.filePath Samples.stateCode [] [] in
  let st := flowState (forAwait Samples.filePath Samples.stateCode
                         Samples.thousandRecords (enter [] [])) in
  benchmarks final = benchmarks st ++ [999; 999]
  /\ currentBenchmark final = Some 999
  /\ benchmarkCount final = 1001
  /\ lineCount final = S (length Samples.thousandRecords).
Proof.
  intros final st.
  destruct thousand_records_run as (Hno & Hcount & Hcc & _).
  change (benchmarkCount st = 999) in Hcount.
  pose proof (limit_pushes_the_record_twice Samples.filePath Samples.stateCode
                Samples.thousandRecords boundaryMarker Samples.lateBlock [] []
                st 999 Samples.completeRecord (flow_continue _ Hno) Hcc) as H.
  rewrite Hcount in H.
  destruct (H eq_refl eq_refl) as (_ & Hbs & _ & Hcur & Hn & Hlc).
  split; [exact Hbs|]. split; [exact Hcur|]. split; [exact Hn|exact Hlc].
Defined.

End Claims.

(** ** Facts about strings and about the matcher *)

Module RegexFacts.
Import JS Regex RegexSemantics.

Lemma append_nil_l (s : string) : String.append "" s = s.
Proof. reflexivity. Qed.

Lemma append_cons c (a b : string) :
  String.append (String c a) b = String c (String.append a b).
Proof. reflexivity. Qed.

Lemma append_empty_r (s : string) : String.append s "" = s.
Proof.
  induction s as [|c s IH]; [reflexivity|]. by rewrite append_cons, IH.
Qed.

Lemma append_assoc (a b c : string) :
  String.append (String.append a b) c = String.append a (String.append b c).
Proof.
  induction a as [|x a IH]; [reflexivity|]. by rewrite !append_cons, IH.
Qed.

Lemma length_append (a b : string) :
  String.length (String.append a b) = String.length a + String.length b.
Proof.
  induction a as [|x a IH]; [reflexivity|].
  rewrite append_cons. simpl. by rewrite IH.
Qed.

Lemma takeStr_append (w s : string) :
  takeStr (String.length w) (String.append w s) = w.
Proof.
  induction w as [|x w IH]; [by destruct s|].
  rewrite append_cons. simpl. by rewrite IH.
Qed.

Lemma takeStr_suffix (w s : string) :
  takeStr (String.length (String.append w s) - String.length s)
    (String.append w s) = w.
Proof.
  rewrite length_append.
  replace (String.length w + String.length s - String.length s)
    with (String.length w) by lia.
  apply takeStr_append.
Qed.

Lemma takeStr_word (s w t : string) :
  s = String.append w t ->
  takeStr (String.length s - String.length t) s = w.
Proof. intros ->. apply takeStr_suffix. Qed.

Lemma prefix_split (lit s : string) :
  String.prefix lit s = true ->
  s = String.append lit (dropStr (String.length lit) s).
Proof.
  revert s. induction lit as [|c lit IH]; intros s; [reflexivity|].
  destruct s as [|c' s]; [discriminate|]. simpl String.prefix.
  destruct (ascii_dec c c') as [<-|]; [|discriminate].
  intros H. rewrite append_cons. simpl. by rewrite <- (IH s H).
Qed.

Lemma prefix_append (w s : string) : String.prefix w (String.append w s) = true.
Proof.
  induction w as [|c w IH]; [by destruct s|].
  rewrite append_cons. simpl. by destruct (ascii_dec c c).
Qed.

Lemma prefix_append_r (a s t : string) :
  String.prefix a s = true -> String.prefix a (String.append s t) = true.
Proof.
  revert s. induction a as [|c a IH]; intros s;
    [by destruct (String.append s t)|].
  destruct s as [|c' s]; [discriminate|]. rewrite append_cons. simpl.
  destruct (ascii_dec c c'); [apply IH|discriminate].
Qed.

(** [includes] finds a needle that stands anywhere in the text. *)
Lemma includes_append_r (s t n : string) :
  includes s n = true -> includes (String.append s t) n = true.
Proof.
  induction s as [|c s IH].
  - simpl. destruct n; [|discriminate]. intros _. by destruct t.
  - rewrite append_cons.
    change (includes (String c s) n)
      with (if String.prefix n (String c s) then true else includes s n).
    change (includes (String c (String.append s t)) n)
      with (if String.prefix n (String c (String.append s t)) then true
            else includes (String.append s t) n).
    destruct (String.prefix n (String c s)) eqn:Hp.
    + intros _. apply (prefix_append_r n (String c s) t) in Hp.
      rewrite append_cons in Hp. by rewrite Hp.
    + intros H. rewrite (IH H).
      by destruct (String.prefix n (String c (String.append s t))).
Qed.

Lemma includes_append_l (s t n : string) :
  includes t n = true -> includes (String.append s t) n = true.
Proof.
  induction s as [|c s IH]; [done|].
  intros H. rewrite append_cons.
  change (includes (String c (String.append s t)) n)
    with (if String.prefix n (String c (String.append s t)) then true
          else includes (String.append s t) n).
  rewrite (IH H).
  by destruct (String.prefix n (String c (String.append s t))).
Qed.

Lemma includes_unfold (s n : string) :
  includes s n =
  if String.prefix n s then true
  else match s with
       | EmptyString => false
       | String _ s' => includes s' n
       end.
Proof. by destruct s. Qed.

Lemma includes_prefix (s n : string) :
  String.prefix n s = true -> includes s n = true.
Proof. intros H. by rewrite includes_unfold, H. Qed.

Lemma includes_middle (a w b : string) :
  includes (String.append a (String.append w b)) w = true.
Proof. apply includes_append_l, includes_prefix, prefix_append. Qed.

(** *** The matcher is sound *)

Lemma star_sound {R : Type} p s (k : string -> option R) x :
  star p s k = Some x ->
  exists w s', s = String.append w s' /\ allChars p w = true /\ k s' = Some x.
Proof.
  induction s as [|c s IH]; simpl.
  - intros H. by exists "", "".
  - destruct (p c) eqn:Hc.
    + destruct (star p s k) as [r|] eqn:Hs.
      * intros [= ->]. destruct (IH eq_refl) as (w & s' & -> & Hw & Hk).
        exists (String c w), s'. simpl. by rewrite Hc, Hw.
      * intros H. by exists "", (String c s).
    + intros H. by exists "", (String c s).
Qed.

Lemma matchAt_sound {R : Type} r : forall s caps (k : string -> list string -> option R) x,
  matchAt r s caps k = Some x ->
  exists w s' cs,
    s = String.append w s' /\ denotes r w cs /\ k s' (caps ++ cs) = Some x.
Proof.
  induction r as [lit|p|p|p|r1 IH1 r2 IH2|r1 IH1 r2 IH2|r1 IH1];
    intros s caps k x; simpl.
  - destruct (String.prefix lit s) eqn:Hp; [|discriminate]. intros Hk.
    exists lit, (dropStr (String.length lit) s), [].
    rewrite app_nil_r. split; [by apply prefix_split|]. split; [constructor|done].
  - destruct s as [|c s]; [discriminate|]. destruct (p c) eqn:Hc; [|discriminate].
    intros Hk. exists (String c ""), s, []. rewrite app_nil_r.
    split; [done|]. split; [by constructor|done].
  - intros H. apply star_sound in H as (w & s' & -> & Hw & Hk).
    exists w, s', []. rewrite app_nil_r. split; [done|]. split; [by constructor|done].
  - destruct s as [|c s]; [discriminate|]. destruct (p c) eqn:Hc; [|discriminate].
    intros H. apply star_sound in H as (w & s' & -> & Hw & Hk).
    exists (String c w), s', []. rewrite app_nil_r.
    split; [done|]. split; [by constructor|done].
  - intros H. apply IH1 in H as (w1 & s1 & cs1 & -> & H1 & H).
    apply IH2 in H as (w2 & s2 & cs2 & -> & H2 & Hk).
    exists (String.append w1 w2), s2, (cs1 ++ cs2).
    rewrite append_assoc, app_assoc. split; [done|]. split; [by constructor|done].
  - destruct (matchAt r1 s caps k) as [y|] eqn:H1.
    + intros [= ->]. apply IH1 in H1 as (w & s' & cs & -> & Hd & Hk).
      exists w, s', cs. split; [done|]. split; [by apply denotes_Alt_l|done].
    + intros H. apply IH2 in H as (w & s' & cs & -> & Hd & Hk).
      exists w, s', cs. split; [done|]. split; [by apply denotes_Alt_r|done].
  - intros H. apply IH1 in H as (w & s' & cs & -> & Hd & Hk).
    rewrite takeStr_suffix in Hk.
    exists w, s', (cs ++ [w]). rewrite app_assoc.
    split; [done|]. split; [by constructor|done].
Qed.

Lemma matchRegex_unfold s r :
  matchRegex s r =
  match matchAt r s [] (fun s' caps => Some (s', caps)) with
  | Some (s', caps) =>
      Some (takeStr (String.length s - String.length s') s :: caps)
  | None =>
      match s with
      | EmptyString => None
      | String _ s' => matchRegex s' r
      end
  end.
Proof. by destruct s. Qed.

(** A match array is the matched text and the groups of a word of the
    pattern that stands somewhere in the subject. *)
Lemma matchRegex_sound s r m :
  matchRegex s r = Some m ->
  exists before w after cs,
    s = String.append before (String.append w after)
    /\ denotes r w cs /\ m = w :: cs.
Proof.
  revert m. induction s as [|c s IH]; intros m; rewrite matchRegex_unfold;
    destruct (matchAt r _ [] _) as [[s' caps]|] eqn:H;
    try (apply matchAt_sound in H as (w & s1 & cs & Hs & Hd & [= <- <-]);
         rewrite (takeStr_word _ w s1 Hs); intros [= <-];
         exists "", w, s1, cs; split; [exact Hs|]; split; [exact Hd|reflexivity]).
  - discriminate.
  - intros H'. destruct (IH _ H') as (before & w & after & cs & -> & Hd & ->).
    by exists (String c before), w, after, cs.
Qed.

End RegexFacts.

(** ** A call on a parser that already holds results *)

Module RelocationFacts.
Import JS Regex NGSDatasheetParser Readings MoreReadings RecordBuilder.

Section Relocate.
Variables (filePath stateCode : string).
Variables (heap0 : list Benchmark) (benchmarks0 : list ref).

Local Abbreviation shift := (relocate heap0 benchmarks0).

Lemma lookup_shifted (h : list Benchmark) r :
  (heap0 ++ h) !! (length heap0 + r) = h !! r.
Proof. rewrite lookup_app_r by lia. f_equal. lia. Qed.

Lemma lookup_relocate st r :
  heap (shift st) !! (length heap0 + r) = heap st !! r.
Proof. apply lookup_shifted. Qed.

Lemma completeCurrent_relocate st :
  completeCurrent (shift st) =
  option_map (fun '(r, b) => (length heap0 + r, b)) (completeCurrent st).
Proof.
  unfold completeCurrent.
  change (currentBenchmark (shift st))
    with (option_map (fun r => length heap0 + r) (currentBenchmark st)).
  destruct (currentBenchmark st) as [r|]; cbn [option_map]; [|reflexivity].
  rewrite lookup_relocate. unfold ref in *.
  destruct (heap st !! r) as [b|]; cbn [option_map]; [|reflexivity].
  by destruct (isComplete b).
Qed.

Lemma save_relocate r b st :
  save filePath stateCode (length heap0 + r) b (shift st)
  = shift (save filePath stateCode r b st).
Proof.
  unfold save, relocate. simpl. f_equal.
  - apply insert_app_r.
  - by rewrite map_app, app_assoc.
Qed.

Lemma startNew_relocate st :
  startNew stateCode (shift st) = shift (startNew stateCode st).
Proof.
  unfold startNew, relocate. simpl. f_equal.
  - by rewrite app_assoc.
  - by rewrite length_app.
Qed.

Lemma extract_relocate line st :
  extract line (shift st) = shift (extract line st).
Proof.
  unfold extract.
  change (currentBenchmark (shift st))
    with (option_map (fun r => length heap0 + r) (currentBenchmark st)).
  destruct (currentBenchmark st) as [r|] eqn:Hcur; cbn [option_map];
    [|reflexivity].
  rewrite lookup_relocate. unfold ref in *.
  destruct (heap st !! r) as [b|]; [|reflexivity].
  unfold relocate. cbn [heap benchmarks currentBenchmark lineCount benchmarkCount].
  cbn [option_map]. f_equal. apply insert_app_r.
Qed.

Lemma loopBody_relocate line st :
  loopBody filePath stateCode line (shift st)
  = mapFlow shift (loopBody filePath stateCode line st).
Proof.
  unfold loopBody, boundary.
  change (countLine (shift st)) with (shift (countLine st)).
  destruct (includes line boundaryMarker).
  - rewrite completeCurrent_relocate.
    destruct (completeCurrent (countLine st)) as [[r b]|];
      cbn [option_map]; cbv beta iota zeta.
    + rewrite save_relocate.
      change (benchmarkCount (shift (save filePath stateCode r b (countLine st))))
        with (benchmarkCount (save filePath stateCode r b (countLine st))).
      destruct (maxBenchmarks <=? _); [reflexivity|].
      cbn [mapFlow]. by rewrite startNew_relocate, extract_relocate.
    + cbn [mapFlow]. by rewrite startNew_relocate, extract_relocate.
  - cbn [mapFlow]. by rewrite extract_relocate.
Qed.

Lemma forAwait_relocate lines : forall st,
  forAwait filePath stateCode lines (shift st)
  = mapFlow shift (forAwait filePath stateCode lines st).
Proof.
  induction lines as [|l ls IH]; intros st; [reflexivity|].
  simpl forAwait. rewrite loopBody_relocate.
  destruct (loopBody filePath stateCode l st); simpl; [apply IH|reflexivity].
Qed.

Lemma flush_relocate st :
  flush filePath stateCode (shift st) = shift (flush filePath stateCode st).
Proof.
  unfold flush. rewrite completeCurrent_relocate.
  destruct (completeCurrent st) as [[r b]|]; cbn [option_map];
    cbv beta iota; [|reflexivity].
  apply save_relocate.
Qed.

Lemma enter_relocate : enter heap0 benchmarks0 = shift (enter [] []).
Proof. unfold enter, relocate. simpl. by rewrite !app_nil_r. Qed.

End Relocate.
End RelocationFacts.

(** ** The shape of the objects a call allocates and saves *)

Module ShapeFacts.
Import JS Regex RegexSemantics NGSDatasheetParser Readings MoreReadings.
Import RecordBuilder RegexFacts.

Lemma parsePID_reading line b :
  parsePID line b =
  match pidOf line with
  | Some i => set_id (Some i) b
  | None => b
  end.
Proof.
  unfold parsePID, pidOf.
  destruct (includes line "PID" && includes line "-"); [|reflexivity].
  by destruct (matchRegex line pidPattern).
Qed.

Lemma parseDesignation_reading line b :
  parseDesignation line b =
  match nameOf line with
  | Some n => set_name (Some n) b
  | None => b
  end.
Proof.
  unfold parseDesignation, nameOf.
  destruct (includes line "DESIGNATION" && includes line "-"); [|reflexivity].
  by destruct (matchRegex line namePattern).
Qed.

(** The field extractor through the five readings of the line. *)
Lemma extractFields_readings line b :
  extractFields line b =
  let b1 := match pidOf line with Some i => set_id (Some i) b | None => b end in
  let b2 := match positionOf line with
            | Some (la, lo) => set_longitude (Some lo) (set_latitude (Some la) b1)
            | None => b1
            end in
  let b3 := match elevationOf line with
            | Some v => set_elevation (Some v) b2
            | None => b2
            end in
  let b4 := match nameOf line with Some n => set_name (Some n) b3 | None => b3 end in
  match classify line with
  | Some k => set_type (category k) b4
  | None => b4
  end.
Proof.
  unfold extractFields.
  by rewrite FieldExtractor.determineType_reading, parseDesignation_reading,
    FieldExtractor.parseElevation_reading,
    FieldExtractor.parseCoordinates_reading, parsePID_reading.
Qed.

Ltac by_readings line :=
  rewrite extractFields_readings; cbv zeta;
  destruct (classify line), (nameOf line), (elevationOf line),
    (positionOf line) as [[? ?]|], (pidOf line); reflexivity.

Lemma extractFields_id line b :
  id (extractFields line b) =
  match pidOf line with Some i => Some i | None => id b end.
Proof. by_readings line. Qed.

Lemma extractFields_name line b :
  name (extractFields line b) =
  match nameOf line with Some n => Some n | None => name b end.
Proof. by_readings line. Qed.

Lemma extractFields_state line b : state (extractFields line b) = state b.
Proof. by_readings line. Qed.

Lemma extractFields_description line b :
  description (extractFields line b) = description b.
Proof. by_readings line. Qed.

Lemma extractFields_datasheet_url line b :
  datasheet_url (extractFields line b) = datasheet_url b.
Proof. by_readings line. Qed.

(** What the PID pattern captures is one or more capital letters and
    digits. *)
Lemma pidOf_pidLike line i : pidOf line = Some i -> pidLike i = true.
Proof.
  unfold pidOf. destruct (includes line "PID" && includes line "-"); [|discriminate].
  destruct (matchRegex line pidPattern) as [m|] eqn:Hm; [|discriminate].
  intros [= <-].
  apply matchRegex_sound in Hm as (before & w & after & cs & _ & Hd & ->).
  unfold pidPattern in Hd. simpl seq in Hd.
  repeat match goal with
         | H : denotes (Seq _ _) _ _ |- _ => inversion H; subst; clear H
         | H : denotes (Str _) _ _ |- _ => inversion H; subst; clear H
         | H : denotes (Star _) _ _ |- _ => inversion H; subst; clear H
         | H : denotes (Grp _) _ _ |- _ => inversion H; subst; clear H
         | H : denotes (Plus _) _ _ |- _ => inversion H; subst; clear H
         end.
  unfold group, pidLike. simpl.
  match goal with
  | H1 : upperOrDigit _ = true, H2 : allChars upperOrDigit _ = true |- _ =>
      by rewrite H1, H2
  end.
Qed.

Lemma typeLabels_category k : In (category k) typeLabels.
Proof. destruct k; simpl; tauto. Qed.

Lemma unsavedShape_new stateCode : unsavedShape stateCode (newBenchmark stateCode).
Proof. repeat split; simpl; auto. Qed.

Lemma unsavedShape_extract stateCode line b :
  unsavedShape stateCode b -> unsavedShape stateCode (extractFields line b).
Proof.
  intros (Hs & Hd & Hu & Hi & Ht).
  rewrite <- (extractFields_state line b) in Hs.
  rewrite <- (extractFields_description line b) in Hd.
  rewrite <- (extractFields_datasheet_url line b) in Hu.
  split; [exact Hs|]. split; [exact Hd|]. split; [exact Hu|]. split.
  - rewrite extractFields_id. destruct (pidOf line) as [i|] eqn:Hp; [|exact Hi].
    right. exists i. split; [reflexivity|]. by apply (pidOf_pidLike line).
  - rewrite FieldExtractor.extractFields_type.
    destruct (classify line); [apply typeLabels_category|exact Ht].
Qed.

Lemma savedShape_first filePath stateCode b :
  unsavedShape stateCode b -> isComplete b = true ->
  savedShape filePath stateCode (describe filePath stateCode b).
Proof.
  intros (Hs & Hd & Hu & Hi & Ht) Hc.
  split; [exact Hc|]. split; [exact Hs|].
  split; [unfold describe; simpl; by rewrite Hd|].
  split; [reflexivity|]. split; [|exact Ht].
  destruct Hi as [Hi|Hi]; [|exact Hi].
  unfold isComplete in Hc. simpl in Hc. rewrite Hi in Hc. simpl in Hc.
  by rewrite andb_false_r in Hc.
Qed.

Lemma savedShape_again filePath stateCode b :
  savedShape filePath stateCode b ->
  savedShape filePath stateCode (describe filePath stateCode b).
Proof.
  intros (Hc & Hs & Hd & Hu & Hi & Ht).
  split; [exact Hc|]. split; [exact Hs|].
  split; [unfold describe; simpl; by rewrite Hd|].
  split; [reflexivity|]. split; [exact Hi|exact Ht].
Qed.

Section Call.
Variables filePath stateCode : string.

Local Abbreviation shaped := (shaped filePath stateCode).
Local Abbreviation savedAt := (savedAt filePath stateCode).
Local Abbreviation openUnsaved := (openUnsaved stateCode).

Lemma savedAt_lt st r : savedAt st r -> r < length (heap st).
Proof. intros (b & Hb & _). eauto using lookup_lt_Some. Qed.

Lemma shaped_save st r b :
  shaped st -> completeCurrent st = Some (r, b) ->
  savedShape filePath stateCode (describe filePath stateCode b) ->
  shaped (save filePath stateCode r b st).
Proof.
  intros [Hpushed Hcount] (Hcur & Hb & Hc)%completeCurrent_Some Hsaved.
  assert (Hr : r < length (heap st)) by eauto using lookup_lt_Some.
  split; simpl; [|rewrite length_app; simpl; lia].
  apply Forall_app. split.
  - eapply Forall_impl; [exact Hpushed|]. intros r' (b' & Hb' & Hs').
    unfold MoreReadings.savedAt. simpl.
    destruct (decide (r = r')) as [<-|Hne].
    + eexists. split; [by apply list_lookup_insert_eq|exact Hsaved].
    + exists b'. split; [by rewrite list_lookup_insert_ne|exact Hs'].
  - constructor; [|constructor]. eexists. simpl.
    split; [by apply list_lookup_insert_eq|exact Hsaved].
Qed.

Lemma shaped_startNew st :
  shaped st ->
  shaped (startNew stateCode st) /\ openUnsaved (startNew stateCode st).
Proof.
  intros [Hpushed Hcount]. split.
  - split; [|exact Hcount]. simpl.
    eapply Forall_impl; [exact Hpushed|]. intros r (b & Hb & Hs).
    exists b. split; [by apply lookup_app_l_Some|exact Hs].
  - intros r [= <-]. split.
    + simpl. intros Hin. rewrite Forall_forall in Hpushed.
      apply Hpushed, savedAt_lt in Hin. lia.
    + exists (newBenchmark stateCode). split; [|apply unsavedShape_new].
      simpl. by apply list_lookup_middle.
Qed.

Lemma shaped_extract line st :
  shaped st -> openUnsaved st ->
  shaped (extract line st) /\ openUnsaved (extract line st).
Proof.
  intros Hs Ho. unfold extract.
  destruct (currentBenchmark st) as [r|] eqn:Hcur; [|by split].
  unfold ref in *. destruct (heap st !! r) as [b|] eqn:Hb; [|by split].
  destruct (Ho r Hcur) as (Hnotin & b' & Hb' & Hshape).
  unfold ref in *. rewrite Hb in Hb'. injection Hb' as <-.
  assert (Hr : r < length (heap st)) by eauto using lookup_lt_Some.
  destruct Hs as [Hpushed Hcount]. split.
  - split; [|exact Hcount]. simpl. rewrite Forall_forall in Hpushed |- *.
    intros r' Hin. destruct (Hpushed r' Hin) as (b' & Hb' & Hs').
    exists b'. split; [|exact Hs']. simpl.
    rewrite list_lookup_insert_ne; [exact Hb'|]. by intros ->.
  - intros r' Hcur'. simpl in Hcur'.
    injection Hcur' as <-. split; [exact Hnotin|].
    exists (extractFields line b). split; [by apply list_lookup_insert_eq|].
    by apply unsavedShape_extract.
Qed.

Lemma shaped_loopBody line st :
  shaped st -> openUnsaved st ->
  match loopBody filePath stateCode line st with
  | Continue st' => shaped st' /\ openUnsaved st'
  | Break st' => shaped st' /\ openPushed st'
  end.
Proof.
  intros Hs Ho. unfold loopBody, boundary.
  assert (Hs0 : shaped (countLine st)) by (by destruct Hs).
  assert (Ho0 : openUnsaved (countLine st)) by exact Ho.
  destruct (includes line boundaryMarker); [|by apply shaped_extract].
  destruct (completeCurrent (countLine st)) as [[r b]|] eqn:Hcc.
  - pose proof Hcc as (Hcur & Hb & Hc)%completeCurrent_Some.
    destruct (Ho0 r Hcur) as (_ & b' & Hb' & Hshape).
    unfold ref in *. rewrite Hb in Hb'. injection Hb' as <-.
    pose proof (shaped_save _ r b Hs0 Hcc
                  (savedShape_first filePath stateCode b Hshape Hc)) as Hsave.
    destruct (maxBenchmarks <=? _).
    + split; [exact Hsave|]. intros r' Hcur'. simpl in Hcur, Hcur' |- *.
      rewrite Hcur in Hcur'. injection Hcur' as <-.
      apply elem_of_app. right. by apply list_elem_of_singleton.
    + destruct (shaped_startNew _ Hsave). by apply shaped_extract.
  - destruct (shaped_startNew _ Hs0). by apply shaped_extract.
Qed.

Lemma shaped_forAwait lines : forall st,
  shaped st -> openUnsaved st ->
  match forAwait filePath stateCode lines st with
  | Continue st' => shaped st' /\ openUnsaved st'
  | Break st' => shaped st' /\ openPushed st'
  end.
Proof.
  induction lines as [|l ls IH]; intros st Hs Ho; simpl; [by split|].
  pose proof (shaped_loopBody l st Hs Ho) as H.
  destruct (loopBody filePath stateCode l st); [|exact H].
  destruct H. by apply IH.
Qed.

Lemma shaped_flush st :
  shaped st -> openUnsaved st \/ openPushed st ->
  shaped (flush filePath stateCode st).
Proof.
  intros Hs Ho. unfold flush.
  destruct (completeCurrent st) as [[r b]|] eqn:Hcc; [|exact Hs].
  pose proof Hcc as (Hcur & Hb & Hc)%completeCurrent_Some.
  apply shaped_save; [exact Hs|exact Hcc|].
  destruct Ho as [Ho|Ho].
  - destruct (Ho r Hcur) as (_ & b' & Hb' & Hshape).
    unfold ref in *. rewrite Hb in Hb'. injection Hb' as <-.
    by apply savedShape_first.
  - destruct Hs as [Hpushed _]. rewrite Forall_forall in Hpushed.
    destruct (Hpushed r (Ho r Hcur)) as (b' & Hb' & Hshape).
    unfold ref in *. rewrite Hb in Hb'. injection Hb' as <-.
    by apply savedShape_again.
Qed.

(** Every reference a call on a new parser has pushed points to a saved
    object. *)
Lemma shaped_parseFresh lines :
  shaped (parseFresh lines filePath stateCode).
Proof.
  unfold parseFresh, parseDatasheetFile.
  assert (Hs : shaped (enter [] [])) by (split; [constructor|reflexivity]).
  assert (Ho : openUnsaved (enter [] [])) by (intros r; discriminate).
  pose proof (shaped_forAwait lines _ Hs Ho) as H.
  destruct (forAwait filePath stateCode lines (enter [] [])); destruct H;
    apply shaped_flush; auto.
Qed.

(** The same for a call on any parser, by relocation. *)
Lemma parse_relocate lines heap0 benchmarks0 :
  parseDatasheetFile lines filePath stateCode heap0 benchmarks0
  = relocate heap0 benchmarks0 (parseFresh lines filePath stateCode).
Proof.
  unfold parseFresh, parseDatasheetFile.
  rewrite (RelocationFacts.enter_relocate heap0 benchmarks0).
  rewrite RelocationFacts.forAwait_relocate.
  destruct (forAwait filePath stateCode lines (enter [] [])); simpl mapFlow;
    simpl flowState; apply RelocationFacts.flush_relocate.
Qed.

Lemma pushed_shapes lines heap0 benchmarks0 :
  let st := parseDatasheetFile lines filePath stateCode heap0 benchmarks0 in
  exists pushed,
    benchmarks st = benchmarks0 ++ pushed
    /\ length pushed = benchmarkCount st
    /\ Forall (savedAt st) pushed.
Proof.
  intros st. unfold st. rewrite parse_relocate.
  destruct (shaped_parseFresh lines) as [Hpushed Hcount].
  exists (map (fun r => length heap0 + r)
            (benchmarks (parseFresh lines filePath stateCode))).
  split; [reflexivity|]. split; [by rewrite length_map|].
  apply Forall_map. eapply Forall_impl; [exact Hpushed|].
  intros r (b & Hb & Hs). exists b. split; [|exact Hs].
  simpl. by rewrite RelocationFacts.lookup_shifted.
Qed.

End Call.
End ShapeFacts.

(** ** Blocks, and the lines before the first boundary line *)

Module BlockFacts.
Import JS Regex RegexSemantics NGSDatasheetParser Readings MoreReadings.
Import RecordBuilder RegexFacts ShapeFacts.

Lemma lastReading_from {A : Type} (reading : string -> option A) lines :
  forall acc,
    fold_left (fun acc line => match reading line with
                               | Some v => Some v
                               | None => acc
                               end) lines acc
    = match lastReading reading lines with
      | Some v => Some v
      | None => acc
      end.
Proof.
  unfold lastReading.
  induction lines as [|l ls IH]; intros acc; simpl; [reflexivity|].
  rewrite (IH (match reading l with Some v => Some v | None => acc end)).
  rewrite (IH (match reading l with Some v => Some v | None => None end)).
  destruct (fold_left _ ls None); [reflexivity|].
  by destruct (reading l).
Qed.

Lemma lastReading_cons {A : Type} (reading : string -> option A) l ls :
  lastReading reading (l :: ls)
  = match lastReading reading ls with
    | Some v => Some v
    | None => reading l
    end.
Proof.
  unfold lastReading at 1. simpl. rewrite lastReading_from.
  destruct (lastReading reading ls); [reflexivity|]. by destruct (reading l).
Qed.

Lemma lastReading_Some {A : Type} (reading : string -> option A) lines v :
  lastReading reading lines = Some v ->
  exists l, In l lines /\ reading l = Some v.
Proof.
  induction lines as [|l ls IH]; [discriminate|].
  rewrite lastReading_cons.
  destruct (lastReading reading ls) as [v'|].
  - intros [= ->]. destruct (IH eq_refl) as (l' & Hin & Hl').
    exists l'. split; [by right|exact Hl'].
  - intros H. exists l. split; [by left|exact H].
Qed.

(** A field that each line either sets from its reading or leaves alone
    is, after a block, set from the last reading of the block. *)
Lemma extractBlock_lastReading {A B : Type} (f : Benchmark -> A)
  (reading : string -> option B) (g : B -> A)
  (step : forall line b,
      f (extractFields line b)
      = match reading line with Some v => g v | None => f b end)
  lines : forall b,
  f (extractBlock lines b)
  = match lastReading reading lines with Some v => g v | None => f b end.
Proof.
  induction lines as [|l ls IH]; intros b; [reflexivity|].
  change (extractBlock (l :: ls) b) with (extractBlock ls (extractFields l b)).
  rewrite IH, lastReading_cons, step.
  by destruct (lastReading reading ls).
Qed.

Lemma extractFields_latitude line b :
  latitude (extractFields line b)
  = match positionOf line with Some p => Some (fst p) | None => latitude b end.
Proof.
  pose proof (FieldExtractor.extractFields_coordinates line b) as H.
  destruct (positionOf line) as [[la lo]|];
    apply pair_equal_spec in H as [H _]; exact H.
Qed.

Lemma extractFields_longitude line b :
  longitude (extractFields line b)
  = match positionOf line with Some p => Some (snd p) | None => longitude b end.
Proof.
  pose proof (FieldExtractor.extractFields_coordinates line b) as H.
  destruct (positionOf line) as [[la lo]|];
    apply pair_equal_spec in H as [_ H]; exact H.
Qed.

(** The validator's verdict on a record is a function of the lines of its
    block. *)
Lemma isComplete_extractBlock stateCode lines :
  isComplete (extractBlock lines (newBenchmark stateCode)) = verdict lines.
Proof.
  unfold isComplete, verdict.
  rewrite (extractBlock_lastReading latitude positionOf (fun p => Some (fst p)))
    by apply extractFields_latitude.
  rewrite (extractBlock_lastReading longitude positionOf (fun p => Some (snd p)))
    by apply extractFields_longitude.
  rewrite (extractBlock_lastReading id pidOf Some);
    [|intros line b; apply extractFields_id].
  destruct (lastReading positionOf lines) as [[la lo]|]; [|reflexivity].
  destruct (lastReading pidOf lines) as [i|] eqn:Hi; simpl;
    [|by rewrite andb_false_r].
  apply lastReading_Some in Hi as (l & _ & Hl).
  apply pidOf_pidLike in Hl. unfold pidLike in Hl.
  apply andb_true_iff in Hl as [-> _]. by rewrite andb_true_r.
Qed.

Section Call.
Variables filePath stateCode : string.

(** A boundary line after which the loop goes on leaves, as the open
    object, the extraction of that line on a new object. *)
Lemma loopBody_opens line st st1 :
  includes line boundaryMarker = true ->
  loopBody filePath stateCode line st = Continue st1 ->
  exists r,
    currentBenchmark st1 = Some r
    /\ heap st1 !! r = Some (extractFields line (newBenchmark stateCode)).
Proof.
  intros Hline. unfold loopBody, boundary. rewrite Hline.
  assert (Hnew : forall st0,
             let st2 := extract line (startNew stateCode st0) in
             currentBenchmark st2 = Some (length (heap st0))
             /\ heap st2 !! length (heap st0)
                = Some (extractFields line (newBenchmark stateCode))).
  { intros st0. unfold extract. simpl.
    rewrite (list_lookup_middle (heap st0) [] _ (length (heap st0)) eq_refl).
    simpl. split; [reflexivity|].
    apply list_lookup_insert_eq. rewrite length_app. simpl. lia. }
  destruct (completeCurrent (countLine st)) as [[r b]|].
  - destruct (maxBenchmarks <=? _); [discriminate|]. intros [= <-].
    eexists. apply Hnew.
  - intros [= <-]. eexists. apply Hnew.
Qed.

(** *** Counting lines has no other effect *)

Lemma countLine_addLines k st :
  countLine (addLines k st) = addLines k (countLine st).
Proof. unfold countLine, addLines. simpl. f_equal. lia. Qed.

Lemma extract_addLines k line st :
  extract line (addLines k st) = addLines k (extract line st).
Proof.
  unfold extract. simpl.
  destruct (currentBenchmark st) as [r|] eqn:Hcur; [|reflexivity].
  unfold ref in *. destruct (heap st !! r); reflexivity.
Qed.

Lemma loopBody_addLines k line st :
  loopBody filePath stateCode line (addLines k st)
  = mapFlow (addLines k) (loopBody filePath stateCode line st).
Proof.
  unfold loopBody, boundary. rewrite countLine_addLines.
  change (completeCurrent (addLines k (countLine st)))
    with (completeCurrent (countLine st)).
  destruct (includes line boundaryMarker).
  - destruct (completeCurrent (countLine st)) as [[r b]|]; cbv zeta.
    + change (save filePath stateCode r b (addLines k (countLine st)))
        with (addLines k (save filePath stateCode r b (countLine st))).
      change (benchmarkCount (addLines k (save filePath stateCode r b (countLine st))))
        with (benchmarkCount (save filePath stateCode r b (countLine st))).
      destruct (maxBenchmarks <=? _); [reflexivity|].
      cbn [mapFlow]. by rewrite <- extract_addLines.
    + cbn [mapFlow]. by rewrite <- extract_addLines.
  - cbn [mapFlow]. by rewrite <- extract_addLines.
Qed.

Lemma forAwait_addLines k lines : forall st,
  forAwait filePath stateCode lines (addLines k st)
  = mapFlow (addLines k) (forAwait filePath stateCode lines st).
Proof.
  induction lines as [|l ls IH]; intros st; [reflexivity|].
  simpl forAwait. rewrite loopBody_addLines.
  destruct (loopBody filePath stateCode l st); simpl; [apply IH|reflexivity].
Qed.

Lemma flush_addLines k st :
  flush filePath stateCode (addLines k st)
  = addLines k (flush filePath stateCode st).
Proof.
  unfold flush.
  change (completeCurrent (addLines k st)) with (completeCurrent st).
  by destruct (completeCurrent st) as [[r b]|].
Qed.

(** Before the first boundary line no record is open, and a line only
    gets counted. *)
Lemma forAwait_before_first_boundary lines : forall st,
  currentBenchmark st = None ->
  Forall inside lines ->
  forAwait filePath stateCode lines st = Continue (addLines (length lines) st).
Proof.
  induction lines as [|l ls IH]; intros st Hcur Hin.
  - simpl. destruct st; reflexivity.
  - inversion_clear Hin as [|? ? Hl Hls]. simpl forAwait.
    rewrite loopBody_inside by exact Hl.
    assert (He : extract l (countLine st) = countLine st).
    { unfold extract. simpl. by rewrite Hcur. }
    rewrite He, (IH (countLine st) Hcur Hls).
    unfold addLines, countLine. simpl. do 2 f_equal. lia.
Qed.

End Call.
End BlockFacts.

(** ** Properties of [parseDatasheetFile] beyond the claims *)

Module Beyond.
Import JS Regex RegexSemantics NGSDatasheetParser Readings MoreReadings.
Import RecordBuilder RegexFacts ShapeFacts BlockFacts.

Lemma omap_cons {A B : Type} (f : A -> option B) x l :
  omap f (x :: l)
  = match f x with Some y => y :: omap f l | None => omap f l end.
Proof. reflexivity. Qed.

Lemma omap_lookup_shifted (heap0 h : list Benchmark) (rs : list ref) :
  omap (fun r => (heap0 ++ h) !! r) (map (fun r => length heap0 + r) rs)
  = omap (fun r => h !! r) rs.
Proof.
  induction rs as [|r rs IH]; [reflexivity|].
  change (map (fun r => length heap0 + r) (r :: rs))
    with ((length heap0 + r) :: map (fun r => length heap0 + r) rs).
  rewrite !omap_cons, RelocationFacts.lookup_shifted, IH. reflexivity.
Qed.

Lemma omap_lookup_old (heap0 h : list Benchmark) (rs : list ref) :
  Forall (fun r => r < length heap0) rs ->
  omap (fun r => (heap0 ++ h) !! r) rs = omap (fun r => heap0 !! r) rs.
Proof.
  induction 1 as [|r rs Hr _ IH]; [reflexivity|].
  rewrite !omap_cons, lookup_app_l by exact Hr. by rewrite IH.
Qed.

(** X1. A call on a parser that already holds results leaves them as they
    are: the objects that existed are not written to, the references that
    were in the collection stay in front, and what the call allocates,
    pushes and returns is what it does on a new parser, with each new
    reference moved past the existing objects. *)
Theorem earlier_results_are_untouched
  (lines : list string) (filePath stateCode : string)
  (heap0 : list Benchmark) (benchmarks0 : list ref) :
  let st := parseDatasheetFile lines filePath stateCode heap0 benchmarks0 in
  let fresh := parseFresh lines filePath stateCode in
  heap st = heap0 ++ heap fresh
  /\ benchmarks st
     = benchmarks0 ++ map (fun r => length heap0 + r) (benchmarks fresh)
  /\ benchmarkCount st = benchmarkCount fresh
  /\ (forall r b, heap0 !! r = Some b -> heap st !! r = Some b).
Proof.
  intros st fresh. unfold st. rewrite parse_relocate. fold fresh.
  split; [reflexivity|]. split; [reflexivity|]. split; [reflexivity|].
  intros r b Hb. simpl. by apply lookup_app_l_Some.
Qed.

(** X2. When every reference the parser held points to an object, the
    collection after a call is the collection before it followed by the
    collection the same file gives on a new parser: files add their records
    in order and independently of what was parsed before. *)
Theorem collection_is_appended
  (lines : list string) (filePath stateCode : string)
  (heap0 : list Benchmark) (benchmarks0 : list ref) :
  Forall (fun r => r < length heap0) benchmarks0 ->
  collection (parseDatasheetFile lines filePath stateCode heap0 benchmarks0)
  = collection (enter heap0 benchmarks0)
    ++ collection (parseFresh lines filePath stateCode).
Proof.
  intros Hwf. rewrite parse_relocate. unfold collection, relocate. simpl.
  rewrite omap_app, omap_lookup_shifted, omap_lookup_old by exact Hwf.
  reflexivity.
Qed.

Lemma collection_is_appended_witness :
  collection (parseDatasheetFile Samples.scenarioA Samples.filePath
                Samples.stateCode MoreSamples.earlierHeap
                MoreSamples.earlierBenchmarks)
  = collection (enter MoreSamples.earlierHeap MoreSamples.earlierBenchmarks)
    ++ collection (parseFresh Samples.scenarioA Samples.filePath Samples.stateCode).
Proof.
  apply collection_is_appended. repeat constructor.
Defined.

(** X3. Every record a call saves carries the region code of the call as
    its state, the description "NGS <type> control point in <state>" built
    from its own type, and the address
    "/data/datasheets/<state>/<file name>". *)
Theorem saved_records_carry_their_origin
  (lines : list string) (filePath stateCode : string)
  (heap0 : list Benchmark) (benchmarks0 : list ref) :
  let st := parseDatasheetFile lines filePath stateCode heap0 benchmarks0 in
  exists pushed,
    benchmarks st = benchmarks0 ++ pushed
    /\ length pushed = benchmarkCount st
    /\ Forall (fun r => exists b,
                   heap st !! r = Some b
                   /\ state b = stateCode
                   /\ description b
                      = Some (String.append "NGS "
                                (String.append (type b)
                                   (String.append " control point in " stateCode)))
                   /\ datasheet_url b
                      = Some (String.append "/data/datasheets/"
                                (String.append stateCode
                                   (String.append "/" (basename filePath)))))
         pushed.
Proof.
  intros st.
  destruct (pushed_shapes filePath stateCode lines heap0 benchmarks0)
    as (pushed & Hp & Hlen & Hall).
  exists pushed. split; [exact Hp|]. split; [exact Hlen|].
  eapply Forall_impl; [exact Hall|].
  intros r (b & Hb & _ & Hs & Hd & Hu & _). by exists b.
Qed.

(** X4. The id of every record a call saves is a string of one or more
    capital letters and digits: what the PID pattern captured. *)
Theorem saved_ids_are_capitals_and_digits
  (lines : list string) (filePath stateCode : string)
  (heap0 : list Benchmark) (benchmarks0 : list ref) :
  let st := parseDatasheetFile lines filePath stateCode heap0 benchmarks0 in
  exists pushed,
    benchmarks st = benchmarks0 ++ pushed
    /\ Forall (fun r => exists b i,
                   heap st !! r = Some b
                   /\ id b = Some i
                   /\ i <> ""
                   /\ allChars upperOrDigit i = true) pushed.
Proof.
  intros st.
  destruct (pushed_shapes filePath stateCode lines heap0 benchmarks0)
    as (pushed & Hp & _ & Hall).
  exists pushed. split; [exact Hp|].
  eapply Forall_impl; [exact Hall|].
  intros r (b & Hb & _ & _ & _ & _ & (i & Hi & Hpid) & _).
  exists b, i. split; [exact Hb|]. split; [exact Hi|].
  unfold pidLike in Hpid. apply andb_true_iff in Hpid as [Hne Hall'].
  split; [|exact Hall']. by destruct i.
Qed.

(** X5. The type of every record a call saves is one of the five labels
    "Control Point", "Primary Airport Control", "CORS Station",
    "Triangulation Station" and "Vertical Control". *)
Theorem saved_types_are_the_five_labels
  (lines : list string) (filePath stateCode : string)
  (heap0 : list Benchmark) (benchmarks0 : list ref) :
  let st := parseDatasheetFile lines filePath stateCode heap0 benchmarks0 in
  exists pushed,
    benchmarks st = benchmarks0 ++ pushed
    /\ Forall (fun r => exists b,
                   heap st !! r = Some b
                   /\ In (type b)
                        [ "Control Point"; "Primary Airport Control";
                          "CORS Station"; "Triangulation Station";
                          "Vertical Control" ]) pushed.
Proof.
  intros st.
  destruct (pushed_shapes filePath stateCode lines heap0 benchmarks0)
    as (pushed & Hp & _ & Hall).
  exists pushed. split; [exact Hp|].
  eapply Forall_impl; [exact Hall|].
  intros r (b & Hb & _ & _ & _ & _ & _ & Ht). by exists b.
Qed.

(** X6. The lines of a file before its first boundary line are only
    counted: the call ends as it does on the file without them, with that
    many more lines counted. A file with no boundary line at all adds
    nothing and returns 0. *)
Theorem lines_before_the_first_boundary_are_ignored
  (pre rest : list string) (filePath stateCode : string)
  (heap0 : list Benchmark) (benchmarks0 : list ref) :
  Forall inside pre ->
  parseDatasheetFile (pre ++ rest) filePath stateCode heap0 benchmarks0
  = addLines (length pre)
      (parseDatasheetFile rest filePath stateCode heap0 benchmarks0)
  /\ parseDatasheetFile pre filePath stateCode heap0 benchmarks0
     = mkState heap0 benchmarks0 None (length pre) 0.
Proof.
  intros Hpre.
  assert (Hrun := forAwait_before_first_boundary filePath stateCode pre
                    (enter heap0 benchmarks0) eq_refl Hpre).
  split.
  - unfold parseDatasheetFile. rewrite forAwait_app, Hrun, forAwait_addLines.
    destruct (forAwait filePath stateCode rest (enter heap0 benchmarks0));
      simpl; apply flush_addLines.
  - unfold parseDatasheetFile. rewrite Hrun. simpl.
    unfold flush, completeCurrent, addLines, enter. simpl.
    by rewrite Nat.add_0_r.
Qed.

Lemma lines_before_the_first_boundary_are_ignored_witness :
  parseDatasheetFile (MoreSamples.preamble ++ Samples.scenarioA)
    Samples.filePath Samples.stateCode [] []
  = addLines 3 (parseDatasheetFile Samples.scenarioA Samples.filePath
                  Samples.stateCode [] [])
  /\ parseDatasheetFile MoreSamples.preamble Samples.filePath
       Samples.stateCode [] []
     = mkState [] [] None 3 0.
Proof.
  apply (lines_before_the_first_boundary_are_ignored MoreSamples.preamble).
  Claims.each_line.
Defined.

(** X7. Within a record's block the last line the PID rule matches decides
    the id: every matching PID line overwrites it. *)
Theorem last_pid_line_wins
  (filePath stateCode : string) (pre : list string) (line : string)
  (post : list string) (st : State) (r : ref) (b : Benchmark) (i : string) :
  currentBenchmark st = Some r ->
  heap st !! r = Some b ->
  Forall inside (pre ++ line :: post) ->
  pidOf line = Some i ->
  Forall (fun l => pidOf l = None) post ->
  exists st' b',
    forAwait filePath stateCode (pre ++ line :: post) st = Continue st'
    /\ currentBenchmark st' = Some r
    /\ heap st' !! r = Some b'
    /\ id b' = Some i.
Proof.
  intros Hcur Hb Hin Hline Hpost.
  destruct (block_last_wins filePath stateCode id
              (fun l => option_map Some (pidOf l)))
    with (pre := pre) (line := line) (post := post)
         (st := st) (r := r) (b := b) (v := Some i)
    as (st' & b' & H); try assumption.
  - intros l x. rewrite extractFields_id. by destruct (pidOf l).
  - by rewrite Hline.
  - eapply Forall_impl; [exact Hpost|]. by intros l ->.
  - by exists st', b'.
Qed.

Lemma last_pid_line_wins_witness :
  exists st' b',
    forAwait Samples.filePath Samples.stateCode
      ([ " AB0001  PID         -  AB0001" ]
       ++ " AB1234  PID         -  AB1234"
       :: [ " AB1234  DESIGNATION -  TEST POINT" ])
      Samples.opened = Continue st'
    /\ currentBenchmark st' = Some 0
    /\ heap st' !! 0 = Some b'
    /\ id b' = Some "AB1234".
Proof.
  apply (last_pid_line_wins _ _ _ _ _ Samples.opened 0
           (newBenchmark Samples.stateCode)).
  - reflexivity.
  - reflexivity.
  - Claims.each_line.
  - Claims.evaluated.
  - Claims.each_line.
Defined.

(** X8. Within a record's block the last line the designation rule matches
    decides the name, which is the text after the tag with the white space
    at both ends removed. *)
Theorem last_designation_line_wins
  (filePath stateCode : string) (pre : list string) (line : string)
  (post : list string) (st : State) (r : ref) (b : Benchmark) (m : list string) :
  currentBenchmark st = Some r ->
  heap st !! r = Some b ->
  Forall inside (pre ++ line :: post) ->
  includes line "DESIGNATION" && includes line "-" = true ->
  matchRegex line namePattern = Some m ->
  Forall (fun l => nameOf l = None) post ->
  exists st' b',
    forAwait filePath stateCode (pre ++ line :: post) st = Continue st'
    /\ currentBenchmark st' = Some r
    /\ heap st' !! r = Some b'
    /\ name b' = Some (trim (group m 1)).
Proof.
  intros Hcur Hb Hin Hguard Hm Hpost.
  destruct (block_last_wins filePath stateCode name
              (fun l => option_map Some (nameOf l)))
    with (pre := pre) (line := line) (post := post)
         (st := st) (r := r) (b := b) (v := Some (trim (group m 1)))
    as (st' & b' & H); try assumption.
  - intros l x. rewrite extractFields_name. by destruct (nameOf l).
  - unfold nameOf. by rewrite Hguard, Hm.
  - eapply Forall_impl; [exact Hpost|]. by intros l ->.
  - by exists st', b'.
Qed.

Lemma last_designation_line_wins_witness :
  exists st' b',
    forAwait Samples.filePath Samples.stateCode
      ([ " AB1234  DESIGNATION -  OLD NAME" ]
       ++ " AB1234  DESIGNATION -    TEST POINT   "
       :: [ " AB1234  PID         -  AB1234" ])
      Samples.opened = Continue st'
    /\ currentBenchmark st' = Some 0
    /\ heap st' !! 0 = Some b'
    /\ name b' = Some "TEST POINT".
Proof.
  apply (last_designation_line_wins _ _ _ _ _ Samples.opened 0
           (newBenchmark Samples.stateCode)
           ["DESIGNATION -    TEST POINT   "; "TEST POINT   "]).
  - reflexivity.
  - reflexivity.
  - Claims.each_line.
  - Claims.evaluated.
  - Claims.evaluated.
  - Claims.each_line.
Defined.

(** X9. Whether the record of a block is saved is decided by two lines of
    the block, the boundary line included: the last line the position rule
    matches and the last line the PID rule matches. The record is saved
    exactly when both exist and the latitude and the longitude of that
    position line are numbers other than zero. *)
Theorem verdict_of_a_block
  (filePath stateCode : string) (first : string) (block : list string)
  (st st1 : State) :
  includes first boundaryMarker = true ->
  Forall inside block ->
  loopBody filePath stateCode first st = Continue st1 ->
  exists st' r,
    forAwait filePath stateCode (first :: block) st = Continue st'
    /\ currentBenchmark st' = Some r
    /\ heap st' !! r
       = Some (extractBlock (first :: block) (newBenchmark stateCode))
    /\ isComplete (extractBlock (first :: block) (newBenchmark stateCode))
       = verdict (first :: block)
    /\ benchmarks (flush filePath stateCode st')
       = if verdict (first :: block) then benchmarks st' ++ [r]
         else benchmarks st'.
Proof.
  intros Hfirst Hblock Hstep.
  destruct (loopBody_opens filePath stateCode first st st1 Hfirst Hstep)
    as (r & Hcur & Hb).
  pose proof (forAwait_block filePath stateCode block st1 r _ Hblock Hcur Hb)
    as Hrun.
  eexists _, r. simpl forAwait. rewrite Hstep.
  split; [exact Hrun|]. split; [reflexivity|].
  assert (Hlt : r < length (heap st1)) by eauto using lookup_lt_Some.
  change (extractBlock (first :: block) (newBenchmark stateCode))
    with (extractBlock block (extractFields first (newBenchmark stateCode))).
  split; [by apply list_lookup_insert_eq|].
  change (extractBlock block (extractFields first (newBenchmark stateCode)))
    with (extractBlock (first :: block) (newBenchmark stateCode)).
  pose proof (isComplete_extractBlock stateCode (first :: block)) as Hv.
  split; [exact Hv|].
  unfold flush, completeCurrent. simpl.
  rewrite list_lookup_insert_eq by exact Hlt.
  change (extractBlock block (extractFields first (newBenchmark stateCode)))
    with (extractBlock (first :: block) (newBenchmark stateCode)).
  rewrite Hv. by destruct (verdict (first :: block)).
Qed.

Lemma verdict_of_a_block_witness :
  exists st' r,
    forAwait Samples.filePath Samples.stateCode
      (Samples.boundaryLine :: MoreSamples.recordLines) (enter [] [])
    = Continue st'
    /\ currentBenchmark st' = Some r
    /\ verdict (Samples.boundaryLine :: MoreSamples.recordLines) = true
    /\ benchmarks (flush Samples.filePath Samples.stateCode st')
       = benchmarks st' ++ [r].
Proof.
  destruct (verdict_of_a_block Samples.filePath Samples.stateCode
              Samples.boundaryLine MoreSamples.recordLines (enter [] [])
              (flowState (loopBody Samples.filePath Samples.stateCode
                            Samples.boundaryLine (enter [] []))))
    as (st' & r & Hrun & Hcur & _ & _ & Hflush).
  - Claims.evaluated.
  - Claims.each_line.
  - Claims.evaluated.
  - exists st', r. split; [exact Hrun|]. split; [exact Hcur|].
    assert (Hv : verdict (Samples.boundaryLine :: MoreSamples.recordLines) = true)
      by Claims.evaluated.
    split; [exact Hv|]. by rewrite Hv in Hflush.
Defined.

End Beyond.

(** ** Facts about the batch runner and the summary *)

Module BatchFacts.
Import JS Regex RegexSemantics NGSDatasheetParser Readings MoreReadings.
Import RecordBuilder ShapeFacts BatchRunner.

(** Every reference of the parser points to an object. *)
Definition allocated (bt : Batch) : Prop :=
  Forall (fun r => r < length (objects bt)) (this_benchmarks bt).

Lemma omap_step {A B : Type} (f : A -> option B) x l :
  omap f (x :: l)
  = match f x with Some y => y :: omap f l | None => omap f l end.
Proof. reflexivity. Qed.

Lemma omap_shifted (heap0 h : list Benchmark) (rs : list ref) :
  omap (fun r => (heap0 ++ h) !! r) (map (fun r => length heap0 + r) rs)
  = omap (fun r => h !! r) rs.
Proof.
  induction rs as [|r rs IH]; [reflexivity|].
  change (map (fun r => length heap0 + r) (r :: rs))
    with ((length heap0 + r) :: map (fun r => length heap0 + r) rs).
  rewrite !omap_step, RelocationFacts.lookup_shifted, IH. reflexivity.
Qed.

Lemma omap_old (heap0 h : list Benchmark) (rs : list ref) :
  Forall (fun r => r < length heap0) rs ->
  omap (fun r => (heap0 ++ h) !! r) rs = omap (fun r => heap0 !! r) rs.
Proof.
  induction 1 as [|r rs Hr _ IH]; [reflexivity|].
  rewrite !omap_step, lookup_app_l by exact Hr. by rewrite IH.
Qed.

(** When every reference resolves, the collection has one object per
    reference. *)
Lemma length_collection_shaped filePath stateCode st :
  shaped filePath stateCode st ->
  length (collection st) = benchmarkCount st
  /\ Forall (savedShape filePath stateCode) (collection st).
Proof.
  intros [Hpushed Hcount]. rewrite <- Hcount. unfold collection.
  clear Hcount. induction Hpushed as [|r rs (b & Hb & Hs) _ [IH1 IH2]].
  - split; [reflexivity|constructor].
  - rewrite omap_step. unfold ref in *. rewrite Hb. simpl.
    split; [by rewrite IH1|by constructor].
Qed.

Section Folder.
Variable datasheetDir : string.

Lemma parseInto_collected lines filePath stateCode bt :
  allocated bt ->
  allocated (parseInto lines filePath stateCode bt)
  /\ collected (parseInto lines filePath stateCode bt)
     = collected bt ++ collection (parseFresh lines filePath stateCode)
  /\ totalBenchmarks (parseInto lines filePath stateCode bt)
     = totalBenchmarks bt
       + length (collection (parseFresh lines filePath stateCode))
  /\ processedStates (parseInto lines filePath stateCode bt)
     = processedStates bt.
Proof.
  intros Hwf. unfold parseInto, collected, allocated. simpl.
  rewrite parse_relocate. simpl.
  pose proof (shaped_parseFresh filePath stateCode lines) as Hshaped.
  destruct (length_collection_shaped _ _ _ Hshaped) as [Hlen _].
  destruct Hshaped as [Hpushed _].
  split; [|split; [|split]].
  - apply Forall_app. split.
    + eapply Forall_impl; [exact Hwf|]. intros r Hr. simpl in Hr.
      rewrite length_app. lia.
    + apply Forall_map. eapply Forall_impl; [exact Hpushed|].
      intros r Hr%savedAt_lt. simpl. rewrite length_app. lia.
  - rewrite omap_app, omap_shifted, omap_old by exact Hwf. reflexivity.
  - by rewrite Hlen.
  - reflexivity.
Qed.

(** The effect of a job, or of a folder without a datasheet file. *)
Definition runJob (j : option Job) (bt : Batch) : Batch :=
  match j with
  | Some j => parseInto (jobLines j) (jobPath j) (jobState j) bt
  | None => bt
  end.

Definition countState (bt : Batch) : Batch :=
  {| objects := objects bt; this_benchmarks := this_benchmarks bt;
     totalBenchmarks := totalBenchmarks bt;
     processedStates := S (processedStates bt) |}.

Lemma forFiles_find folder fs bt :
  forFiles (pathJoin datasheetDir folder) folder fs bt
  = runJob (jobOf datasheetDir (mkDirEntry folder true fs)) bt.
Proof.
  unfold jobOf. simpl.
  induction fs as [|[file lines] rest IH]; [reflexivity|].
  simpl. destruct (isDatasheet file); [reflexivity|exact IH].
Qed.

Lemma jobOf_files e :
  jobOf datasheetDir e
  = jobOf datasheetDir (mkDirEntry (entryName e) true (files e)).
Proof. reflexivity. Qed.

Lemma processFolder_eligible e bt :
  eligible e = true ->
  processFolder datasheetDir e bt
  = countState (runJob (jobOf datasheetDir e) bt).
Proof.
  intros He. unfold processFolder. rewrite He, forFiles_find, <- jobOf_files.
  reflexivity.
Qed.

Lemma processFolder_skipped e bt :
  eligible e = false -> processFolder datasheetDir e bt = bt.
Proof. intros He. unfold processFolder. by rewrite He. Qed.

(** The loop over the folders processes the first eligible folders, as
    many as the counter leaves room for. *)
Lemma forFolders_selected folders : forall bt,
  forFolders datasheetDir folders bt
  = fold_left (fun bt' e => countState (runJob (jobOf datasheetDir e) bt'))
      (take (maxStates - processedStates bt) (List.filter eligible folders)) bt.
Proof.
  induction folders as [|e rest IH]; intros bt.
  - cbn [forFolders List.filter]. by rewrite take_nil.
  - cbn [forFolders List.filter].
    destruct (Nat.leb_spec maxStates (processedStates bt)) as [Hfull|Hroom].
    + replace (maxStates - processedStates bt) with 0 by lia.
      rewrite take_0. reflexivity.
    + destruct (eligible e) eqn:He.
      * rewrite processFolder_eligible by exact He. rewrite IH.
        replace (maxStates - processedStates bt)
          with (S (maxStates - S (processedStates bt))) by lia.
        cbn [take fold_left].
        assert (Hp : processedStates
                       (countState (runJob (jobOf datasheetDir e) bt))
                     = S (processedStates bt)).
        { cbn [countState processedStates].
          by destruct (jobOf datasheetDir e). }
        by rewrite Hp.
      * rewrite processFolder_skipped by exact He. apply IH.
Qed.

(** What a run over selected folders adds up to. *)
Lemma fold_selected es : forall bt,
  allocated bt ->
  let bt' := fold_left
               (fun bt' e => countState (runJob (jobOf datasheetDir e) bt'))
               es bt in
  allocated bt'
  /\ collected bt'
     = collected bt ++ concat (map jobCollection (omap (jobOf datasheetDir) es))
  /\ totalBenchmarks bt'
     = totalBenchmarks bt
       + length (concat (map jobCollection (omap (jobOf datasheetDir) es)))
  /\ processedStates bt' = processedStates bt + length es.
Proof.
  induction es as [|e es IH]; intros bt Hwf.
  - simpl. rewrite app_nil_r. repeat split; auto; lia.
  - cbv zeta. cbn [fold_left length]. rewrite omap_step.
    destruct (jobOf datasheetDir e) as [j|]; cbn [runJob].
    + destruct (parseInto_collected (jobLines j) (jobPath j) (jobState j) bt Hwf)
        as (Hwf1 & Hc1 & Ht1 & Hp1).
      destruct (IH (countState (parseInto (jobLines j) (jobPath j) (jobState j) bt)))
        as (Hwf2 & Hc2 & Ht2 & Hp2); [exact Hwf1|].
      split; [exact Hwf2|]. split; [|split].
      * rewrite Hc2. change (collected (countState ?x)) with (collected x).
        rewrite Hc1. cbn [map concat]. by rewrite <- app_assoc.
      * rewrite Ht2. change (totalBenchmarks (countState ?x)) with (totalBenchmarks x).
        rewrite Ht1. cbn [map concat]. rewrite !length_app.
        unfold jobCollection. lia.
      * rewrite Hp2.
        change (processedStates (countState ?x)) with (S (processedStates x)).
        rewrite Hp1. lia.
    + destruct (IH (countState bt)) as (Hwf2 & Hc2 & Ht2 & Hp2); [exact Hwf|].
      split; [exact Hwf2|]. split; [exact Hc2|]. split; [exact Ht2|].
      rewrite Hp2.
      change (processedStates (countState ?x)) with (S (processedStates x)).
      lia.
Qed.

End Folder.

(** *** Counting keys *)

Lemma countKey_lookup k k' (m : gmap string nat) :
  countKey k m !! k'
  = if String.eqb k k' then Some (default 0 (m !! k') + 1) else m !! k'.
Proof.
  unfold countKey. destruct (String.eqb_spec k k') as [<-|Hne].
  - by rewrite lookup_insert_eq.
  - by rewrite lookup_insert_ne.
Qed.

Lemma countKeys_lookup (key : Benchmark -> string) k bs :
  forall m : gmap string nat,
    fold_left (fun m' b => countKey (key b) m') bs m !! k
    = match occurrences key k bs with
      | 0 => m !! k
      | S n => Some (default 0 (m !! k) + S n)
      end.
Proof.
  unfold occurrences.
  induction bs as [|b bs IH]; intros m; [reflexivity|].
  simpl fold_left. rewrite IH, countKey_lookup. simpl List.filter.
  destruct (String.eqb (key b) k); simpl length.
  - simpl default. destruct (length _); f_equal; lia.
  - reflexivity.
Qed.

Lemma sumCounts_countKey k (m : gmap string nat) :
  sumCounts (countKey k m) = S (sumCounts m).
Proof.
  unfold sumCounts, countKey.
  assert (Hcomm : forall (m' : gmap string nat) (j1 j2 : string) (z1 z2 y : nat),
             j1 <> j2 -> m' !! j1 = Some z1 -> m' !! j2 = Some z2 ->
             z1 + (z2 + y) = z2 + (z1 + y)) by (intros; lia).
  destruct (m !! k) as [n|] eqn:Hk; simpl default.
  - rewrite <- insert_delete_eq.
    rewrite map_fold_insert_L; [|by eauto|by rewrite lookup_delete_eq].
    rewrite (map_fold_delete_L _ _ k n m); [lia|by eauto|exact Hk].
  - rewrite map_fold_insert_L; [lia|by eauto|exact Hk].
Qed.

Lemma sumCounts_countKeys (key : Benchmark -> string) bs :
  forall m : gmap string nat,
    sumCounts (fold_left (fun m' b => countKey (key b) m') bs m)
    = sumCounts m + length bs.
Proof.
  induction bs as [|b bs IH]; intros m; simpl; [lia|].
  rewrite IH, sumCounts_countKey. lia.
Qed.

(** The three fields of the summary, each as a fold of its own. *)
Lemma summary_fold bs : forall s0,
  let s := fold_left
             (fun summary benchmark =>
                {| total := total summary;
                   byType := countKey (type benchmark) (byType summary);
                   byState := countKey (state benchmark) (byState summary) |})
             bs s0 in
  total s = total s0
  /\ byType s = fold_left (fun m b => countKey (type b) m) bs (byType s0)
  /\ byState s = fold_left (fun m b => countKey (state b) m) bs (byState s0).
Proof.
  induction bs as [|b bs IH]; intros s0; [by repeat split|].
  exact (IH {| total := total s0;
               byType := countKey (type b) (byType s0);
               byState := countKey (state b) (byState s0) |}).
Qed.

Lemma getSummary_fields bs :
  total (getSummary bs) = length bs
  /\ byType (getSummary bs) = fold_left (fun m b => countKey (type b) m) bs ∅
  /\ byState (getSummary bs) = fold_left (fun m b => countKey (state b) m) bs ∅.
Proof. apply (summary_fold bs (mkSummary (length bs) ∅ ∅)). Qed.

End BatchFacts.

(** ** Properties of the batch runner and of the summary *)

Module BeyondBatch.
Import JS Regex RegexSemantics NGSDatasheetParser Readings MoreReadings.
Import RecordBuilder ShapeFacts BatchRunner BatchFacts.

Lemma selected_run datasheetDir stateFolders :
  let bt := processAllDatasheets datasheetDir stateFolders [] [] in
  collected bt = concat (map jobCollection (jobs datasheetDir stateFolders))
  /\ totalBenchmarks bt
     = length (concat (map jobCollection (jobs datasheetDir stateFolders)))
  /\ processedStates bt = length (selectedFolders stateFolders).
Proof.
  intros bt. unfold bt, processAllDatasheets.
  rewrite forFolders_selected. cbn [processedStates].
  rewrite Nat.sub_0_r. fold (selectedFolders stateFolders).
  destruct (fold_selected datasheetDir (selectedFolders stateFolders)
              (mkBatch [] [] 0 0)) as (_ & Hc & Ht & Hp); [constructor|].
  split; [exact Hc|]. split; [exact Ht|exact Hp].
Qed.

Lemma benchmarkCount_parseFresh lines filePath stateCode :
  benchmarkCount (parseFresh lines filePath stateCode) <= S maxBenchmarks.
Proof.
  unfold parseFresh, parseDatasheetFile.
  assert (Hstart : benchmarkCount (enter [] []) < maxBenchmarks)
    by (unfold maxBenchmarks; simpl; lia).
  pose proof (count_forAwait filePath stateCode lines _ Hstart) as Hcount.
  pose proof (flush_count filePath stateCode
                (flowState (forAwait filePath stateCode lines (enter [] []))))
    as Hflush.
  destruct (forAwait filePath stateCode lines (enter [] [])); simpl in *; lia.
Qed.

Lemma length_jobCollection j : length (jobCollection j) <= S maxBenchmarks.
Proof.
  unfold jobCollection.
  destruct (length_collection_shaped _ _ _
              (shaped_parseFresh (jobPath j) (jobState j) (jobLines j)))
    as [-> _].
  apply benchmarkCount_parseFresh.
Qed.

Lemma length_concat_jobs js :
  length (concat (map jobCollection js)) <= S maxBenchmarks * length js.
Proof.
  induction js as [|j js IH]; [simpl; lia|].
  cbn [map concat length]. rewrite length_app.
  pose proof (length_jobCollection j). lia.
Qed.

Lemma length_omap_le {A B : Type} (f : A -> option B) l :
  length (omap f l) <= length l.
Proof.
  induction l as [|x l IH]; [reflexivity|].
  rewrite BatchFacts.omap_step. destruct (f x); simpl; lia.
Qed.

Lemma length_selectedFolders stateFolders :
  length (selectedFolders stateFolders) <= maxStates.
Proof. unfold selectedFolders. rewrite length_take. lia. Qed.

(** X10. A run of the batch on a new parser gives the records of its files
    one file after the other: the collection is the concatenation, in the
    order of the directory listing, of what each selected file gives when
    parsed alone. The files selected are the first with the extension .txt
    or .dat in each of the first ten folders that are directories with a
    name of at most three characters; [totalBenchmarks] is the length of
    the collection and [processedStates] the number of those folders. *)
Theorem batch_is_the_concatenation_of_its_files
  (datasheetDir : string) (stateFolders : list DirEntry) :
  let bt := processAllDatasheets datasheetDir stateFolders [] [] in
  collected bt = concat (map jobCollection (jobs datasheetDir stateFolders))
  /\ totalBenchmarks bt = length (collected bt)
  /\ processedStates bt = length (selectedFolders stateFolders)
  /\ selectedFolders stateFolders
     = take 10 (List.filter
                  (fun e => isDirectory e && (String.length (entryName e) <=? 3))
                  stateFolders).
Proof.
  intros bt. destruct (selected_run datasheetDir stateFolders) as (Hc & Ht & Hp).
  fold bt in Hc, Ht, Hp.
  split; [exact Hc|]. split; [by rewrite Hc|]. split; [exact Hp|].
  unfold selectedFolders. f_equal. apply List.filter_ext. intros e.
  unfold eligible.
  destruct (isDirectory e); [|reflexivity].
  destruct (Nat.leb_spec (String.length (entryName e)) 3) as [Hle|Hgt];
    [|reflexivity].
  destruct (String.eqb_spec (entryName e) "Zips") as [Heq|Hne]; [|reflexivity].
  rewrite Heq in Hle. simpl in Hle. lia.
Qed.

(** X11. A run of the batch processes at most ten folders, parses at most
    ten files and adds at most 10010 records, whatever the directory
    holds. *)
Theorem batch_is_bounded
  (datasheetDir : string) (stateFolders : list DirEntry) :
  let bt := processAllDatasheets datasheetDir stateFolders [] [] in
  processedStates bt <= 10
  /\ length (jobs datasheetDir stateFolders) <= 10
  /\ totalBenchmarks bt <= 10 * 1001
  /\ length (collected bt) <= 10 * 1001.
Proof.
  intros bt. destruct (selected_run datasheetDir stateFolders) as (Hc & Ht & Hp).
  fold bt in Hc, Ht, Hp.
  pose proof (length_selectedFolders stateFolders) as Hsel.
  assert (Hjobs : length (jobs datasheetDir stateFolders) <= maxStates).
  { unfold jobs. etransitivity; [apply length_omap_le|exact Hsel]. }
  pose proof (length_concat_jobs (jobs datasheetDir stateFolders)) as Hlen.
  unfold maxStates, maxBenchmarks in *. rewrite Hc. clearbody bt.
  repeat split; lia.
Qed.

Lemma inherited_names_are_long k :
  In k inheritedNames -> 3 < String.length k.
Proof.
  unfold inheritedNames. simpl.
  intros H. repeat (destruct H as [<-|H]; [simpl; lia|]). contradiction.
Qed.

Lemma labels_are_own_keys t : In t typeLabels -> ownKey t.
Proof.
  unfold typeLabels, ownKey, inheritedNames. simpl.
  intros H. repeat (destruct H as [<-|H]; [intuition discriminate|]).
  contradiction.
Qed.

Lemma selected_is_eligible stateFolders e :
  In e (selectedFolders stateFolders) ->
  In e stateFolders /\ isDirectory e = true
  /\ String.length (entryName e) <= 3.
Proof.
  unfold selectedFolders. intros He.
  apply list_elem_of_In, elem_of_take in He as (i & He & _).
  apply list_elem_of_lookup_2, list_elem_of_In, List.filter_In in He.
  destruct He as [Hin Hel]. unfold eligible in Hel.
  apply andb_true_iff in Hel as [Hel _].
  apply andb_true_iff in Hel as [Hdir Hlen]. apply Nat.leb_le in Hlen.
  by repeat split.
Qed.

Lemma jobOf_state datasheetDir e j :
  jobOf datasheetDir e = Some j -> jobState j = entryName e.
Proof.
  unfold jobOf. destruct (List.find _ (files e)) as [[file lines]|];
    [|discriminate].
  by intros [= <-].
Qed.

Lemma jobs_records datasheetDir (P : DirEntry -> Prop) es :
  Forall P es ->
  Forall (fun b =>
            isComplete b = true
            /\ (exists e, P e /\ state b = entryName e)
            /\ In (type b) typeLabels)
    (concat (map jobCollection (omap (jobOf datasheetDir) es))).
Proof.
  induction 1 as [|e es He Hes IH]; [constructor|].
  rewrite BatchFacts.omap_step.
  destruct (jobOf datasheetDir e) as [j|] eqn:Hj; [|exact IH].
  cbn [map concat]. apply Forall_app. split; [|exact IH].
  apply jobOf_state in Hj. unfold jobCollection.
  destruct (length_collection_shaped _ _ _
              (shaped_parseFresh (jobPath j) (jobState j) (jobLines j)))
    as [_ Hall].
  eapply Forall_impl; [exact Hall|].
  intros b (Hcomplete & Hs & _ & _ & _ & Ht).
  rewrite Hj in Hs.
  split; [exact Hcomplete|]. split; [by exists e|exact Ht].
Qed.

(** X12. Every record a run of the batch collects passes the test of the
    save sites and carries as its state the name of one of the selected
    folders, a name of at most three characters; its type is one of the
    five labels. So no key the summary counts under is a property name
    inherited from [Object.prototype]. *)
Theorem batch_records_belong_to_selected_folders
  (datasheetDir : string) (stateFolders : list DirEntry) :
  let bt := processAllDatasheets datasheetDir stateFolders [] [] in
  Forall (fun b =>
            isComplete b = true
            /\ (exists e, In e (selectedFolders stateFolders)
                          /\ In e stateFolders
                          /\ isDirectory e = true
                          /\ state b = entryName e)
            /\ String.length (state b) <= 3
            /\ In (type b) typeLabels
            /\ ownKey (state b) /\ ownKey (type b))
    (collected bt).
Proof.
  intros bt. destruct (selected_run datasheetDir stateFolders) as (Hc & _).
  fold bt in Hc. rewrite Hc. unfold jobs. clear bt Hc.
  eapply Forall_impl.
  - apply (jobs_records datasheetDir
             (fun e => In e (selectedFolders stateFolders))).
    apply List.Forall_forall. auto.
  - intros b (Hcomplete & (e & He & Hs) & Ht).
    destruct (selected_is_eligible _ _ He) as (Hin & Hdir & Hlen).
    split; [exact Hcomplete|]. split; [by exists e|].
    split; [by rewrite Hs|]. split; [exact Ht|]. split.
    + intros Hbad%inherited_names_are_long. rewrite Hs in Hbad. lia.
    + by apply labels_are_own_keys.
Qed.

(** X13. For objects whose type and state are no inherited property
    names, the summary counts each key right: under a type, and under a
    state, it holds the number of objects that have it, and it has no entry
    for a key no object has. *)
Theorem summary_counts_each_key (bs : list Benchmark) (k : string) :
  Forall (fun b => ownKey (type b) /\ ownKey (state b)) bs ->
  ownKey k ->
  byType (getSummary bs) !! k
  = match occurrences type k bs with 0 => None | S n => Some (S n) end
  /\ byState (getSummary bs) !! k
     = match occurrences state k bs with 0 => None | S n => Some (S n) end.
Proof.
  intros _ _. destruct (getSummary_fields bs) as (_ & -> & ->).
  rewrite !countKeys_lookup, lookup_empty. simpl default.
  split; [by destruct (occurrences type k bs)|by destruct (occurrences state k bs)].
Qed.

Lemma summary_counts_each_key_witness :
  byType (getSummary MoreSamples.treeRecords) !! "Control Point" = Some 2
  /\ byState (getSummary MoreSamples.treeRecords) !! "Control Point" = None.
Proof.
  destruct (summary_counts_each_key MoreSamples.treeRecords "Control Point")
    as [Ht Hs].
  - vm_compute. repeat constructor; unfold ownKey, inheritedNames; simpl;
      intuition discriminate.
  - unfold ownKey, inheritedNames. simpl. intuition discriminate.
  - split; [rewrite Ht|rewrite Hs]; vm_compute; reflexivity.
Defined.

(** X14. For such objects the counts of the summary add up: the counts by
    type sum to [total], the counts by state sum to [total], and [total] is
    the number of objects, an object pushed twice counted twice. *)
Theorem summary_counts_add_up (bs : list Benchmark) :
  Forall (fun b => ownKey (type b) /\ ownKey (state b)) bs ->
  total (getSummary bs) = length bs
  /\ sumCounts (byType (getSummary bs)) = total (getSummary bs)
  /\ sumCounts (byState (getSummary bs)) = total (getSummary bs).
Proof.
  intros _. destruct (getSummary_fields bs) as (-> & -> & ->).
  rewrite !sumCounts_countKeys.
  assert (H0 : sumCounts (∅ : gmap string nat) = 0)
    by apply map_fold_empty.
  rewrite H0. repeat split; lia.
Qed.

Lemma summary_counts_add_up_witness :
  total (getSummary MoreSamples.treeRecords) = 2
  /\ sumCounts (byType (getSummary MoreSamples.treeRecords))
     = total (getSummary MoreSamples.treeRecords)
  /\ sumCounts (byState (getSummary MoreSamples.treeRecords))
     = total (getSummary MoreSamples.treeRecords).
Proof.
  destruct (summary_counts_add_up MoreSamples.treeRecords) as (Ht & Hy & Hs).
  - vm_compute. repeat constructor; unfold ownKey, inheritedNames; simpl;
      intuition discriminate.
  - split; [rewrite Ht; vm_compute; reflexivity|]. split; [exact Hy|exact Hs].
Defined.

Lemma occurrences_pos (key : Benchmark -> string) k bs :
  0 < occurrences key k bs -> exists b, In b bs /\ key b = k.
Proof.
  unfold occurrences. induction bs as [|b bs IH]; simpl; [lia|].
  destruct (String.eqb_spec (key b) k) as [Heq|Hne].
  - intros _. exists b. split; [by left|exact Heq].
  - intros [b' [Hin Hb']]%IH. exists b'. split; [by right|exact Hb'].
Qed.

Lemma counted_key (key : Benchmark -> string) k n bs :
  fold_left (fun m b => countKey (key b) m) bs ∅ !! k = Some n ->
  0 < n /\ exists b, In b bs /\ key b = k.
Proof.
  rewrite countKeys_lookup, lookup_empty. simpl default.
  destruct (occurrences key k bs) as [|m] eqn:Hocc; [discriminate|].
  intros [= <-]. split; [lia|]. apply occurrences_pos. lia.
Qed.

(** X15. What [main] prints after a run on a new parser: the total of the
    summary is the [totalBenchmarks] of the run, the counts by type and
    the counts by state each sum to it, every state listed is the name of
    one of the selected folders and every type listed is one of the five
    labels, each with a count above zero. *)
Theorem summary_of_a_batch
  (datasheetDir : string) (stateFolders : list DirEntry) :
  let bt := processAllDatasheets datasheetDir stateFolders [] [] in
  let summary := getSummary (collected bt) in
  total summary = totalBenchmarks bt
  /\ sumCounts (byType summary) = totalBenchmarks bt
  /\ sumCounts (byState summary) = totalBenchmarks bt
  /\ (forall k n, byState summary !! k = Some n ->
        0 < n /\ exists e, In e (selectedFolders stateFolders)
                           /\ k = entryName e)
  /\ (forall k n, byType summary !! k = Some n ->
        0 < n /\ In k typeLabels).
Proof.
  intros bt summary.
  destruct (selected_run datasheetDir stateFolders) as (Hc & Ht & _).
  fold bt in Hc, Ht. rewrite <- Hc in Ht.
  assert (Hall : Forall (fun b =>
                    isComplete b = true
                    /\ (exists e, In e (selectedFolders stateFolders)
                                  /\ state b = entryName e)
                    /\ In (type b) typeLabels) (collected bt)).
  { rewrite Hc. apply jobs_records. apply List.Forall_forall. auto. }
  destruct (getSummary_fields (collected bt)) as (Htotal & Hty & Hst).
  fold summary in Htotal, Hty, Hst.
  assert (H0 : sumCounts (∅ : gmap string nat) = 0) by apply map_fold_empty.
  rewrite Htotal, Hty, Hst, !sumCounts_countKeys, H0, Ht.
  split; [reflexivity|]. split; [lia|]. split; [lia|].
  rewrite List.Forall_forall in Hall.
  split; intros k n [Hn (b & Hin & <-)]%counted_key;
    (split; [exact Hn|]);
    destruct (Hall b Hin) as (_ & (e & He & Hs) & Hlabel).
  - by exists e.
  - exact Hlabel.
Qed.

End BeyondBatch.
